(** * Reactive-vs-Proactive-Agents: the orchestration core of [agents.py]
      and the key handling of [app.py], embedded in Rocq.

    The two hosted completion providers and the search tool are external
    collaborators: they are modelled as oracles of a [world], indexed by the
    number of external calls made so far, so that two identical requests may
    be answered differently.  Everything between the oracles, that is the
    exception handlers, the shape sniffing of the refinement result, the write
    to [os.environ] and the sanitising of the pasted keys, is translated from
    the source. *)

From Stdlib Require Import ZArith QArith Qcanon Ascii String List Bool Lia.
From stdpp Require Import base option list strings gmap pretty.

Local Open Scope Z_scope.

(* ===================================================================== *)
(** ** Python strings

    A [str] is modelled by [string]; a character is a code point below 256. *)
(* ===================================================================== *)

Module PyStr.

(** [sep.join(l)] *)
Fixpoint join (sep : string) (l : list string) : string :=
  match l with
  | [] => ""
  | [s] => s
  | s :: l' => s +:+ sep +:+ join sep l'
  end.

(** [s.startswith(p)] *)
Fixpoint startswith (p s : string) : bool :=
  match p, s with
  | EmptyString, _ => true
  | String a p', String b s' => if Ascii.eqb a b then startswith p' s' else false
  | String _ _, EmptyString => false
  end.

(** [sub in s] *)
Fixpoint contains (sub s : string) : bool :=
  startswith sub s ||
  match s with
  | EmptyString => false
  | String _ s' => contains sub s'
  end.

(** [c in s] for a single character *)
Fixpoint mem (c : ascii) (s : string) : bool :=
  match s with
  | EmptyString => false
  | String a s' => Ascii.eqb a c || mem c s'
  end.

(** [str.isspace] on the code points below 256: the characters whose
    bidirectional class is WS, B or S, or whose category is Zs. *)
Definition isspace (c : ascii) : bool :=
  let n := nat_of_ascii c in
  ((9 <=? n) && (n <=? 13) || (28 <=? n) && (n <=? 32)
   || (n =? 133) || (n =? 160))%nat.

(** [s.lstrip(...)], [s.rstrip(...)], [s.strip(...)]: the characters to drop
    are given by a predicate, [isspace] for the call without argument. *)
Fixpoint lstrip (p : ascii -> bool) (s : string) : string :=
  match s with
  | EmptyString => EmptyString
  | String c s' => if p c then lstrip p s' else s
  end.

Fixpoint rstrip (p : ascii -> bool) (s : string) : string :=
  match s with
  | EmptyString => EmptyString
  | String c s' =>
      match rstrip p s' with
      | EmptyString => if p c then EmptyString else String c EmptyString
      | r => String c r
      end
  end.

Definition strip (p : ascii -> bool) (s : string) : string :=
  rstrip p (lstrip p s).

(** [s.strip(chars)] *)
Definition strip_chars (chars : string) : string -> string :=
  strip (fun c => mem c chars).

(** every character of [s] satisfies [p] *)
Fixpoint all_chars (p : ascii -> bool) (s : string) : bool :=
  match s with
  | EmptyString => true
  | String c s' => p c && all_chars p s'
  end.

Definition first_char (s : string) : option ascii :=
  match s with EmptyString => None | String c _ => Some c end.

Fixpoint last_char (s : string) : option ascii :=
  match s with
  | EmptyString => None
  | String c EmptyString => Some c
  | String _ s' => last_char s'
  end.

(** neither the first nor the last character of [s] satisfies [p] *)
Definition ends_clean (p : ascii -> bool) (s : string) : bool :=
  match first_char s with Some c => negb (p c) | None => true end
  && match last_char s with Some c => negb (p c) | None => true end.

(** ** [repr] of a [str] *)

Definition hex_digit (n : nat) : ascii :=
  ascii_of_nat (if (n <? 10)%nat then 48 + n else 87 + n)%nat.

(** [str.isprintable] on one code point below 256 *)
Definition isprintable (c : ascii) : bool :=
  let n := nat_of_ascii c in
  ((32 <=? n) && (n <? 127) || (161 <=? n) && negb (n =? 173))%nat.

Definition repr_char (quote c : ascii) : string :=
  let n := nat_of_ascii c in
  if Ascii.eqb c quote || Ascii.eqb c "\"%char then String "\" (String c "")
  else if (n =? 9)%nat then "\t"
  else if (n =? 10)%nat then "\n"
  else if (n =? 13)%nat then "\r"
  else if isprintable c then String c ""
  else String "\" (String "x" (String (hex_digit (n / 16)) (String (hex_digit (n mod 16)) ""))).

Fixpoint repr_body (quote : ascii) (s : string) : string :=
  match s with
  | EmptyString => EmptyString
  | String c s' => repr_char quote c +:+ repr_body quote s'
  end.

Definition dquote : ascii := "034"%char.

(** Single quotes, unless the string holds a single quote and no double
    quote. *)
Definition repr (s : string) : string :=
  let quote := if mem "'" s && negb (mem dquote s) then dquote else "'"%char in
  String quote (repr_body quote s +:+ String quote "").

End PyStr.

(* ===================================================================== *)
(** ** Python values

    The refinement executor may hand back any value; the extraction code
    tells dicts, lists, strings and objects with a [content] attribute apart.
    An object carries its attributes and what [str] and [repr] give for it. *)
(* ===================================================================== *)

Module Py.

#[warnings="-register-all"]
Inductive pyval : Type :=
| VNone
| VBool (b : bool)
| VInt (n : Z)
| VStr (s : string)
| VList (l : list pyval)
| VDict (d : list (string * pyval))
| VObj (attrs : list (string * pyval)) (str_form repr_form : string).

(** [isinstance(v, dict)], [isinstance(v, list)], [isinstance(v, str)] *)
Definition is_dict (v : pyval) : bool :=
  match v with VDict _ => true | _ => false end.
Definition is_list (v : pyval) : bool :=
  match v with VList _ => true | _ => false end.
Definition is_str (v : pyval) : bool :=
  match v with VStr _ => true | _ => false end.

(** a value that is a string with at least one character *)
Definition is_nonempty_str (v : pyval) : bool :=
  match v with VStr (String _ _) => true | _ => false end.

(** Truth value, as tested by [if v:]. Objects have no [__bool__] or
    [__len__] of their own and are true. *)
Definition truthy (v : pyval) : bool :=
  match v with
  | VNone => false
  | VBool b => b
  | VInt n => negb (n =? 0)
  | VStr s => negb (String.eqb s "")
  | VList l => match l with [] => false | _ => true end
  | VDict d => match d with [] => false | _ => true end
  | VObj _ _ _ => true
  end.

(** lookup in the items of a dict or in the attributes of an object *)
Fixpoint assoc {A} (k : string) (l : list (string * A)) : option A :=
  match l with
  | [] => None
  | (k', v) :: l' => if String.eqb k k' then Some v else assoc k l'
  end.

(** [k in d] *)
Definition has_key {A} (k : string) (d : list (string * A)) : bool :=
  match assoc k d with Some _ => true | None => false end.

(** [getattr(v, name, None)]: only objects have attributes of interest *)
Definition getattr (v : pyval) (name : string) : pyval :=
  match v with
  | VObj attrs _ _ => default VNone (assoc name attrs)
  | _ => VNone
  end.

(** [repr(v)] *)
Fixpoint repr (v : pyval) : string :=
  match v with
  | VNone => "None"
  | VBool b => if b then "True" else "False"
  | VInt n => pretty n
  | VStr s => PyStr.repr s
  | VList l => "[" +:+ PyStr.join ", " (map repr l) +:+ "]"
  | VDict d =>
      "{" +:+ PyStr.join ", "
                (map (fun kv => PyStr.repr (fst kv) +:+ ": " +:+ repr (snd kv)) d)
          +:+ "}"
  | VObj _ _ r => r
  end.

(** [str(v)] *)
Definition str (v : pyval) : string :=
  match v with
  | VStr s => s
  | VObj _ s _ => s
  | _ => repr v
  end.

End Py.

(* ===================================================================== *)
(** ** [agents.py] *)
(* ===================================================================== *)

Module Agents.
Import Py.

(** What is modelled and how:
    - building a model object, a prompt, a chain or an executor only stores
      its arguments; the calls that reach a provider, and the construction
      of the search tool, are answered by the [world] and may raise;
    - the fast provider answers with a message whose [content] is text; the
      executor may answer with a value of any shape, which is what the
      extraction at the end of [run_proactive] is written for;
    - [ThreadPoolExecutor.submit(f, ...).result()] is the call of [f]: the
      runner waits for each result before it goes on. *)

(** *** Exceptions and outcomes

    [exn] stands for the instances of [Exception], the class every handler of
    the module names; [exn_str e] is [str(e)]. *)
Inductive exn : Type :=
| Exception (msg : string)
| ValueError (msg : string).

Definition exn_str (e : exn) : string :=
  match e with
  | Exception msg => msg
  | ValueError msg => msg
  end.

Inductive result (A : Type) : Type :=
| Ok (a : A)
| Raise (e : exn).
Arguments Ok {A} a.
Arguments Raise {A} e.

(** *** The collaborators' data *)

Inductive role : Type := system | human.

(** [ChatGroq(groq_api_key=..., model=..., temperature=...)] *)
Record ChatGroq : Type := {
  groq_api_key : string;
  groq_model : string;
  groq_temperature : Qc
}.

(** [ChatGoogleGenerativeAI(model=..., temperature=..., google_api_key=...)] *)
Record ChatGoogleGenerativeAI : Type := {
  gemini_model : string;
  gemini_temperature : Qc;
  google_api_key : string
}.

(** the message a chat model answers with; only [content] is read *)
Record AIMessage : Type := { content : string }.

(** [TavilySearchResults(max_results=...)]; the key is the one the
    constructor finds in the environment *)
Record TavilySearchResults : Type := {
  max_results : nat;
  tavily_key_used : option string
}.

(** an entry of [ChatPromptTemplate.from_messages] *)
Inductive prompt_part : Type :=
| Message (r : role) (template : string)
| MessagesPlaceholder (variable_name : string).

#[global] Instance role_eq_dec : EqDecision role.
Proof. solve_decision. Defined.

#[global] Instance prompt_part_eq_dec : EqDecision prompt_part.
Proof. solve_decision. Defined.

(** [prompt | llm], the chain of the reactive agent and of the health check *)
Record chain : Type := {
  chain_prompt : list prompt_part;
  chain_llm : ChatGroq
}.

(** [AgentExecutor(agent=create_tool_calling_agent(llm, tools, prompt),
    tools=tools, verbose=True, handle_parsing_errors=True)] *)
Record AgentExecutor : Type := {
  agent_llm : ChatGoogleGenerativeAI;
  agent_tools : list TavilySearchResults;
  agent_prompt : list prompt_part;
  tools : list TavilySearchResults;
  verbose : bool;
  handle_parsing_errors : bool
}.

(** *** The state the module works on: the process environment and the
    record of the calls made to the collaborators, oldest first. *)

Inductive event : Type :=
| GroqInvoke (c : chain) (input : string)
| TavilyInit (n : nat) (env_key : option string)
| ExecutorInvoke (ex : AgentExecutor) (draft_content original_topic : string).

Record state : Type := {
  environ : gmap string string;
  trace : list event
}.

(** *** The collaborators. Each answer may depend on the number of calls
    made before it. *)
Record world : Type := {
  (** [chain.invoke({"input": input})] on a [prompt | ChatGroq] chain *)
  groq_invoke : nat -> chain -> string -> result AIMessage;
  (** does [TavilySearchResults(max_results=n)] come up, given the
      [TAVILY_API_KEY] of the environment *)
  tavily_init : nat -> nat -> option string -> result unit;
  (** [executor.invoke({"draft_content": ..., "original_topic": ...})] *)
  executor_invoke : nat -> AgentExecutor -> string -> string -> result pyval
}.

(** *** State and exception monad *)

Definition M (A : Type) : Type := state -> result A * state.

Definition ret {A} (a : A) : M A := fun st => (Ok a, st).

Definition bind {A B} (m : M A) (k : A -> M B) : M B :=
  fun st =>
    match m st with
    | (Ok a, st') => k a st'
    | (Raise e, st') => (Raise e, st')
    end.

Definition raise {A} (e : exn) : M A := fun st => (Raise e, st).

(** [try: body  except Exception as e: handler(e)] *)
Definition try_except {A} (body : M A) (handler : exn -> M A) : M A :=
  fun st =>
    match body st with
    | (Ok a, st') => (Ok a, st')
    | (Raise e, st') => handler e st'
    end.

Notation "'let*' x ':=' m 'in' k" := (bind m (fun x => k))
  (at level 10, x name, m at level 100, k at level 200).

(** the state once a call to a collaborator is recorded *)
Definition record (ev : event) (st : state) : state :=
  {| environ := environ st; trace := trace st ++ [ev] |}.

(** a call to a collaborator: recorded, then answered *)
Definition call {A} (ev : event) (answer : nat -> result A) : M A :=
  fun st => (answer (length (trace st)), record ev st).

(** [os.environ[name] = value]: a name or a value that holds a NUL
    character is refused with [ValueError], and nothing is written *)
Definition setenv (name value : string) : M unit :=
  fun st =>
    if PyStr.mem "000"%char name || PyStr.mem "000"%char value then
      (Raise (ValueError "embedded null byte"), st)
    else
      (Ok tt,
       {| environ := <[name := value]> (environ st); trace := trace st |}).

(** *** 1. Agent definitions *)

Definition health_check_prompt : list prompt_part :=
  [ Message system "You are a health check.";
    Message human "Reply with OK" ].

(** the [chain] of [validate_groq_key]: the health-check prompt piped into
    a [ChatGroq] at temperature 0.0 *)
Definition health_check_chain (api_key model : string) : chain :=
  let llm := {| groq_api_key := api_key; groq_model := model;
                groq_temperature := 0%Qc |} in
  {| chain_prompt := health_check_prompt; chain_llm := llm |}.

(** a recorded call that is a health check *)
Definition is_health_check (ev : event) : bool :=
  match ev with
  | GroqInvoke c _ => bool_decide (chain_prompt c = health_check_prompt)
  | _ => false
  end.

(** a recorded call to the fast provider that is not a health check *)
Definition is_completion_call (ev : event) : bool :=
  match ev with
  | GroqInvoke _ _ => negb (is_health_check ev)
  | _ => false
  end.

Definition completion_calls (evs : list event) : list event :=
  List.filter is_completion_call evs.

(** Attempt a minimal call to Groq to validate the API key and model access.
    Returns an error message string on failure, or None on success. *)
Definition validate_groq_key (w : world) (api_key model : string)
  : M (option string) :=
  try_except
    (let chain := health_check_chain api_key model in
     let* _ := call (GroqInvoke chain "") (fun n => groq_invoke w n chain "") in
     ret None)
    (fun e => ret (Some (exn_str e))).

(** [if err:] on a value that is a string or [None] *)
Definition err_truthy (err : option string) : bool :=
  match err with
  | Some s => truthy (VStr s)
  | None => truthy VNone
  end.

Definition reactive_system_prompt : string :=
  "You are a fast, reactive content drafting agent. Your sole purpose is to "
  +:+ "generate a concise, direct, and engaging draft in response to the user's request. "
  +:+ "Do not overthink or use external tools. Focus on speed and a clear structure. "
  +:+ "The user will provide a topic or idea. Your output should be a draft of a short social media post or a blog outline.".

(** what [create_reactive_agent] returns, [prompt | llm] *)
Definition reactive_chain (api_key model_name : string) (temperature : Qc)
  : chain :=
  let llm := {| groq_api_key := api_key; groq_model := model_name;
                groq_temperature := temperature |} in
  let prompt := [ Message system reactive_system_prompt;
                  Message human "{input}" ] in
  {| chain_prompt := prompt; chain_llm := llm |}.

(** Creates the Reactive Agent (Groq): a simple chain, without tools. *)
Definition create_reactive_agent (w : world) (api_key model_name : string)
    (temperature : Qc) : M chain :=
  let* err := validate_groq_key w api_key model_name in
  if err_truthy err then
    raise (ValueError ("Groq API key or model '" +:+ model_name
                       +:+ "' is invalid: " +:+ default "" err))
  else ret (reactive_chain api_key model_name temperature).

Definition nl : string := String "010"%char "".

Definition proactive_system_prompt : string :=
  "You are a sophisticated, proactive content strategist. Your task is to analyze "
  +:+ "the 'DRAFT' content provided by another agent and refine it. "
  +:+ "Your refinement must include:" +:+ nl
  +:+ "1. **Analysis:** A brief critique of the draft (e.g., 'Good start, but needs data.')." +:+ nl
  +:+ "2. **Refinement:** The final, polished content. Use the web_search tool to find supporting facts, statistics, or recent trends to enhance the content's credibility, if necessary." +:+ nl
  +:+ "3. **Next Steps:** Proactively suggest 2-3 logical next steps for the user (e.g., 'Next, create a diagram for this post,' or 'Run a second agent to translate this content.')." +:+ nl +:+ nl
  +:+ "Your final response MUST be structured clearly with these three sections.".

(** the [prompt] of [create_proactive_agent] *)
Definition proactive_prompt : list prompt_part :=
  [ Message system proactive_system_prompt;
    Message human "DRAFT to refine: {draft_content}\n\nOriginal Topic: {original_topic}";
    MessagesPlaceholder "agent_scratchpad" ].

(** [if use_search and tavily_api_key:] *)
Definition search_wanted (use_search : bool) (tavily_api_key : option string)
  : bool :=
  use_search && err_truthy tavily_api_key.

(** Creates the Proactive Agent (Gemini), with the search tool when it is
    asked for and comes up. *)
Definition create_proactive_agent (w : world) (api_key model_name : string)
    (temperature : Qc) (use_search : bool) (tavily_api_key : option string)
  : M AgentExecutor :=
  let llm := {| gemini_model := model_name; gemini_temperature := temperature;
                google_api_key := api_key |} in
  let* tools :=
    if search_wanted use_search tavily_api_key then
      let* _ := setenv "TAVILY_API_KEY" (default "" tavily_api_key) in
      try_except
        (fun st =>
           let key := environ st !! "TAVILY_API_KEY" in
           (let* _ := call (TavilyInit 5 key) (fun n => tavily_init w n 5%nat key) in
            ret [ {| max_results := 5; tavily_key_used := key |} ]) st)
        (fun _ => ret [])
    else ret [] in
  let prompt := proactive_prompt in
  ret {| agent_llm := llm; agent_tools := tools; agent_prompt := prompt;
         tools := tools; verbose := true; handle_parsing_errors := true |}.

(** *** 3. Parallel execution function *)

Definition groq_config : Type := string * string * Qc.
Definition gemini_config : Type := string * string * Qc * bool * option string.

(** the body of [run_reactive], under its [try] *)
Definition run_reactive_body (w : world) (prompt : string)
    (groq_api_key groq_model : string) (groq_temp : Qc) : M string :=
  let* err := validate_groq_key w groq_api_key groq_model in
  if err_truthy err then
    ret ("Reactive Agent Error: " +:+ default "" err)
  else
    let* reactive_chain := create_reactive_agent w groq_api_key groq_model groq_temp in
    let* response :=
      call (GroqInvoke reactive_chain prompt)
           (fun n => groq_invoke w n reactive_chain prompt) in
    ret (content response).

Definition run_reactive (w : world) (prompt : string)
    (groq_api_key groq_model : string) (groq_temp : Qc) : M string :=
  try_except
    (run_reactive_body w prompt groq_api_key groq_model groq_temp)
    (fun e => ret ("Reactive Agent Error: " +:+ exn_str e)).

(** [for k in (...): if k in response: return response[k]] *)
Fixpoint first_present (ks : list string) (response : list (string * pyval))
  : option pyval :=
  match ks with
  | [] => None
  | k :: ks' =>
      if has_key k response then assoc k response
      else first_present ks' response
  end.

(** the loop over [response["messages"]] that fills [texts] *)
Fixpoint message_texts (messages : list pyval) : list string :=
  match messages with
  | [] => []
  | m :: messages' =>
      let c := getattr m "content" in
      if truthy c then
        (match c with VStr s => s | _ => str c end) :: message_texts messages'
      else message_texts messages'
  end.

(** Extract final content robustly across return shapes, the tail of
    [run_proactive] from [if isinstance(response, dict):] on. *)
Definition extract_final_content (response : pyval) : pyval :=
  match response with
  | VDict d =>
      match first_present ["output"; "output_text"; "final_output"] d with
      | Some v => v
      | None =>
          let joined :=
            match assoc "messages" d with
            | Some (VList messages) =>
                match message_texts messages with
                | [] => None
                | texts => Some (VStr (PyStr.join nl texts))
                end
            | _ => None
            end in
          default (VStr (str response)) joined
      end
  | _ =>
      let content := getattr response "content" in
      if truthy content then content
      else if is_str response then response
      else VStr (str response)
  end.

(** the body of [run_proactive], under its [try] *)
Definition run_proactive_body (w : world) (prompt : string)
    (gemini_api_key gemini_model : string) (gemini_temp : Qc)
    (use_search : bool) (tavily_key : option string)
    (draft_content : string) : M pyval :=
  let* proactive_executor :=
    create_proactive_agent w gemini_api_key gemini_model gemini_temp
                           use_search tavily_key in
  let* response :=
    call (ExecutorInvoke proactive_executor draft_content prompt)
         (fun n => executor_invoke w n proactive_executor draft_content prompt) in
  ret (extract_final_content response).

Definition run_proactive (w : world) (prompt : string)
    (gemini_api_key gemini_model : string) (gemini_temp : Qc)
    (use_search : bool) (tavily_key : option string)
    (draft_content : string) : M pyval :=
  try_except
    (run_proactive_body w prompt gemini_api_key gemini_model gemini_temp
                        use_search tavily_key draft_content)
    (fun e => ret (VStr ("Proactive Agent Error: " +:+ exn_str e))).

(** Runs the reactive agent, waits for its draft, then runs the proactive
    agent on that draft and waits for it: [submit(f).result()] is the call of
    [f], an exception of [f] being raised again by [result()]. *)
Definition run_agents_parallel (w : world) (prompt : string)
    (groq_cfg : groq_config) (gemini_cfg : gemini_config)
  : M (string * pyval) :=
  let '(groq_api_key, groq_model, groq_temp) := groq_cfg in
  let '(gemini_api_key, gemini_model, gemini_temp, use_search, tavily_key) :=
    gemini_cfg in
  let* draft_content :=
    run_reactive w prompt groq_api_key groq_model groq_temp in
  let* proactive_result :=
    run_proactive w prompt gemini_api_key gemini_model gemini_temp
                  use_search tavily_key draft_content in
  ret (draft_content, proactive_result).

(** *** Vocabulary of the statements below *)

(** calls of the draft step, calls of the refinement step *)
Definition is_draft_event (ev : event) : bool :=
  match ev with GroqInvoke _ _ => true | _ => false end.
Definition is_refinement_event (ev : event) : bool :=
  negb (is_draft_event ev).

(** the value [extract_final_content] hands back as it finds it: the first
    final-output field of a dict, the true [content] of another value *)
Definition handed_back (response : pyval) : option pyval :=
  match response with
  | VDict d => first_present ["output"; "output_text"; "final_output"] d
  | _ =>
      let content := getattr response "content" in
      if truthy content then Some content else None
  end.

(** the text a result of one of the three expected shapes carries: the
    final-output field of a dict, the [content] of a message, a plain string *)
Definition provider_text (response : pyval) : option string :=
  match response with
  | VDict d =>
      match first_present ["output"; "output_text"; "final_output"] d with
      | Some (VStr s) => Some s
      | _ => None
      end
  | VObj attrs _ _ =>
      match assoc "content" attrs with
      | Some (VStr s) => Some s
      | _ => None
      end
  | VStr s => Some s
  | _ => None
  end.

(** the tools [create_proactive_agent] ends up with, when [n] calls were
    made before *)
Definition search_tools (w : world) (n : nat) (use_search : bool)
    (tavily_api_key : option string) : list TavilySearchResults :=
  if search_wanted use_search tavily_api_key then
    match tavily_init w n 5%nat tavily_api_key with
    | Ok _ => [ {| max_results := 5; tavily_key_used := tavily_api_key |} ]
    | Raise _ => []
    end
  else [].

(** the executor [create_proactive_agent] builds around given tools *)
Definition executor_with (api_key model_name : string) (temperature : Qc)
    (tools : list TavilySearchResults) : AgentExecutor :=
  {| agent_llm := {| gemini_model := model_name;
                     gemini_temperature := temperature;
                     google_api_key := api_key |};
     agent_tools := tools; agent_prompt := proactive_prompt;
     tools := tools; verbose := true; handle_parsing_errors := true |}.

(** the environment [create_proactive_agent] leaves when the environment
    takes the key *)
Definition environ_after (use_search : bool) (tavily_api_key : option string)
    (env : gmap string string) : gmap string string :=
  if search_wanted use_search tavily_api_key
  then <["TAVILY_API_KEY" := default "" tavily_api_key]> env
  else env.

(** the search key is asked for and is one the environment refuses *)
Definition key_refused (use_search : bool) (tavily_api_key : option string)
  : bool :=
  search_wanted use_search tavily_api_key
  && PyStr.mem "000"%char (default "" tavily_api_key).

(** the state [create_proactive_agent] leaves when it returns an executor *)
Definition agent_created (use_search : bool)
    (tavily_api_key : option string) (st : state) : state :=
  {| environ := environ_after use_search tavily_api_key (environ st);
     trace := trace st ++
              (if search_wanted use_search tavily_api_key
               then [TavilyInit 5 tavily_api_key] else []) |}.

(** the answer of the second provider to the call [run_proactive] makes from
    a given state *)
Definition refinement_answer (w : world) (prompt api_key model_name : string)
    (temperature : Qc) (use_search : bool) (tavily_key : option string)
    (draft_content : string) (st : state) : result pyval :=
  let n := length (trace st) in
  executor_invoke w
    (n + if search_wanted use_search tavily_key then 1 else 0)%nat
    (executor_with api_key model_name temperature
       (search_tools w n use_search tavily_key))
    draft_content prompt.

(** what the health check made as call number [n] gives [validate_groq_key] *)
Definition validation_error (w : world) (n : nat) (api_key model : string)
  : option string :=
  match groq_invoke w n (health_check_chain api_key model) "" with
  | Ok _ => None
  | Raise e => Some (exn_str e)
  end.

(** the draft [run_reactive] returns and the calls it makes, when [n] calls
    were made before *)
Definition draft_outcome (w : world) (prompt api_key model : string)
    (temperature : Qc) (n : nat) : string * list event :=
  let check := GroqInvoke (health_check_chain api_key model) "" in
  let err := validation_error w n api_key model in
  if err_truthy err then
    ("Reactive Agent Error: " +:+ default "" err, [check])
  else
    let err' := validation_error w (S n) api_key model in
    if err_truthy err' then
      ("Reactive Agent Error: " +:+ "Groq API key or model '" +:+ model
         +:+ "' is invalid: " +:+ default "" err',
       [check; check])
    else
      let c := reactive_chain api_key model temperature in
      (match groq_invoke w (S (S n)) c prompt with
       | Ok response => content response
       | Raise e => "Reactive Agent Error: " +:+ exn_str e
       end,
       [check; check; GroqInvoke c prompt]).

(** the same chain, the same executor, with the API key blanked *)
Definition without_groq_key (c : chain) : chain :=
  {| chain_prompt := chain_prompt c;
     chain_llm := {| groq_api_key := "";
                     groq_model := groq_model (chain_llm c);
                     groq_temperature := groq_temperature (chain_llm c) |} |}.

Definition without_google_key (ex : AgentExecutor) : AgentExecutor :=
  {| agent_llm := {| gemini_model := gemini_model (agent_llm ex);
                     gemini_temperature := gemini_temperature (agent_llm ex);
                     google_api_key := "" |};
     agent_tools := agent_tools ex; agent_prompt := agent_prompt ex;
     tools := tools ex; verbose := verbose ex;
     handle_parsing_errors := handle_parsing_errors ex |}.

(** a world whose answers do not depend on the API keys it is called with *)
Definition key_blind (w : world) : Prop :=
  (forall n c c' input,
      without_groq_key c = without_groq_key c' ->
      groq_invoke w n c input = groq_invoke w n c' input) /\
  (forall n ex ex' draft topic,
      without_google_key ex = without_google_key ex' ->
      executor_invoke w n ex draft topic = executor_invoke w n ex' draft topic).

End Agents.

(* ===================================================================== *)
(** ** [app.py]: what the [Run Dual Agents] button does *)
(* ===================================================================== *)

Module App.
Import Py Agents.

(** the widget values of [st.session_state] the handler reads *)
Record session_state : Type := {
  gemini_key_input : option string;
  groq_key_input : option string;
  tavily_key_input : option string;
  use_search : bool;
  groq_model : string;
  groq_temp : Qc;
  gemini_model : string;
  gemini_temp : Qc
}.

(** Helper to sanitize keys copied with quotes/spaces *)
Definition _sanitize (key : option string) : string :=
  match key with
  | None => ""
  | Some key =>
      PyStr.strip_chars "'"
        (PyStr.strip_chars (String PyStr.dquote "")
           (PyStr.strip PyStr.isspace key))
  end.

(** the three keys after [# Sanitize keys from sidebar] *)
Definition gemini_key (ss : session_state) : string :=
  _sanitize (gemini_key_input ss).
Definition groq_key (ss : session_state) : string :=
  _sanitize (groq_key_input ss).
Definition tavily_key (ss : session_state) : string :=
  if use_search ss then _sanitize (tavily_key_input ss) else "".

(** a recorded call that carries the given keys and no other *)
Definition carries_keys (groq_key gemini_key tavily_key : string) (ev : event)
  : Prop :=
  match ev with
  | GroqInvoke c _ => groq_api_key (chain_llm c) = groq_key
  | TavilyInit _ key => key = Some tavily_key
  | ExecutorInvoke ex _ _ =>
      google_api_key (agent_llm ex) = gemini_key /\
      Forall (fun tool => tavily_key_used tool = Some tavily_key) (tools ex)
  end.

(** what the handler leaves on the page *)
Inductive outcome : Type :=
| StError (msg : string)
| Results (reactive_result : string) (proactive_result : pyval).

Definition not_str (s : string) : bool := negb (truthy (VStr s)).

(** the body of [if st.button("Run Dual Agents"):] *)
Definition on_run_click (w : world) (user_prompt : string) (ss : session_state)
  : state -> outcome * state :=
  fun st =>
    if not_str user_prompt then
      (StError "Please enter a content idea to run the agents.", st)
    else if not_str (gemini_key ss) || not_str (groq_key ss)
            || (use_search ss && not_str (tavily_key ss)) then
      (StError "Please ensure all necessary API keys are provided in the sidebar.", st)
    else
      let groq_config := (groq_key ss, groq_model ss, groq_temp ss) in
      let gemini_config :=
        (gemini_key ss, gemini_model ss, gemini_temp ss, use_search ss,
         Some (tavily_key ss)) in
      match run_agents_parallel w user_prompt groq_config gemini_config st with
      | (Ok (reactive_result, proactive_result), st') =>
          (Results reactive_result proactive_result, st')
      | (Raise e, st') =>
          (StError ("Failed to run agents: " +:+ exn_str e), st')
      end.

End App.

(* ===================================================================== *)
(** ** Mocked collaborators, for the concrete scenarios *)
(* ===================================================================== *)

Module Scenarios.
Import Py Agents App.

(** a fresh process: empty environment, no call made yet *)
Definition st0 : state := {| environ := ∅; trace := [] |}.

Definition groq_cfg0 : groq_config := ("gsk_123", "llama-3.1-8b-instant", 0%Qc).
Definition gemini_cfg0 : gemini_config :=
  ("AIza_456", "gemini-2.5-flash", 1%Qc, false, Some "").
Definition gemini_cfg_search : gemini_config :=
  ("AIza_456", "gemini-2.5-flash", 1%Qc, true, Some "tvly-789").

Definition refined_text : string :=
  "Analysis: ok" +:+ nl +:+ "Refinement: ..." +:+ nl +:+ "Next Steps: ...".

(** the fast provider answers every call, the drafting one with a draft; the
    second provider answers with the dict an [AgentExecutor] builds *)
Definition w_mock : world := {|
  groq_invoke := fun _ c _ =>
    if bool_decide (chain_prompt c = health_check_prompt)
    then Ok {| content := "OK" |}
    else Ok {| content := "Serverless is rising." |};
  tavily_init := fun _ _ _ => Ok tt;
  executor_invoke := fun _ _ draft topic =>
    Ok (VDict [("draft_content", VStr draft); ("original_topic", VStr topic);
               ("output", VStr refined_text)])
|}.

(** the fast provider rejects the key; the second provider echoes the draft
    it was given *)
Definition w_auth_error : world := {|
  groq_invoke := fun _ _ _ => Raise (Exception "401 Invalid API Key");
  tavily_init := fun _ _ _ => Ok tt;
  executor_invoke := fun _ _ draft _ =>
    Ok (VDict [("output", VStr ("Refined: " +:+ draft))])
|}.

(** the fast provider fails with an exception that carries no message, as
    [TimeoutError()] does *)
Definition w_silent_failure : world := {|
  groq_invoke := fun _ _ _ => Raise (Exception "");
  tavily_init := fun _ _ _ => Ok tt;
  executor_invoke := fun _ _ _ _ => Ok (VDict [("output", VStr refined_text)])
|}.

(** the fast provider's error message quotes the key it was called with *)
Definition w_leaky : world := {|
  groq_invoke := fun _ c _ =>
    Raise (Exception ("Invalid API Key: " +:+ groq_api_key (chain_llm c)));
  tavily_init := fun _ _ _ => Ok tt;
  executor_invoke := fun _ _ _ _ => Ok (VDict [("output", VStr refined_text)])
|}.

(** the second provider comes back with an empty final answer *)
Definition w_empty_output : world := {|
  groq_invoke := groq_invoke w_mock;
  tavily_init := fun _ _ _ => Ok tt;
  executor_invoke := fun _ _ _ _ => Ok (VDict [("output", VStr "")])
|}.

(** the second provider's final answer is a list of content parts *)
Definition w_list_output : world := {|
  groq_invoke := groq_invoke w_mock;
  tavily_init := fun _ _ _ => Ok tt;
  executor_invoke := fun _ _ _ _ =>
    Ok (VDict [("output", VList [VStr "final"; VStr "text"])])
|}.

(** a search key with a NUL character in it *)
Definition nul_key : string := "tvly-" +:+ String "000"%char "789".
Definition gemini_cfg_nul : gemini_config :=
  ("AIza_456", "gemini-2.5-flash", 1%Qc, true, Some nul_key).

(** the search tool cannot be set up *)
Definition w_no_tool : world := {|
  groq_invoke := groq_invoke w_mock;
  tavily_init := fun _ _ _ => Raise (Exception "Did not find tavily_api_key");
  executor_invoke := executor_invoke w_mock
|}.

(** three messages, the second without text *)
Definition three_messages : list pyval :=
  [ VObj [("content", VStr "first")] "m1" "m1";
    VObj [("content", VStr "")] "m2" "m2";
    VObj [("content", VStr "second")] "m3" "m3" ].

(** the page, with keys pasted with blanks and quotes around them *)
Definition ss0 : session_state := {|
  gemini_key_input := Some (" 'AIza_456' ");
  groq_key_input := Some ("gsk_123" +:+ nl);
  tavily_key_input := Some "  tvly-789";
  use_search := true;
  groq_model := "llama-3.1-8b-instant";
  groq_temp := 0%Qc;
  gemini_model := "gemini-2.5-flash";
  gemini_temp := 1%Qc
|}.

End Scenarios.

(* ===================================================================== *)
(** ** [app.py]: the session state around a run

    [st.session_state] is the dict the script reads and writes between two
    runs of the page. *)
(* ===================================================================== *)

Module Page.
Import Py Agents App.

(** [st.session_state.get(name, False)] *)
Definition session_get (name : string) (session : gmap string pyval) : pyval :=
  default (VBool false) (session !! name).

(** [name in st.session_state] *)
Definition session_has (name : string) (session : gmap string pyval) : bool :=
  bool_decide (is_Some (session !! name)).

(** the widget keys that hold the pasted API keys *)
Definition key_widgets : list string :=
  ["gemini_key_input"; "groq_key_input"; "tavily_key_input"].

(** [for k in ks: if k in st.session_state: del st.session_state[k]] *)
Fixpoint delete_present (ks : list string) (session : gmap string pyval)
  : gmap string pyval :=
  match ks with
  | [] => session
  | k :: ks' =>
      delete_present ks'
        (if session_has k session then delete k session else session)
  end.

(** Pre-clear sensitive widget keys before rendering any widgets, the block
    at the top of the script. *)
Definition pre_clear (session : gmap string pyval) : gmap string pyval :=
  if truthy (session_get "__clear_keys__" session) then
    <["__clear_keys__" := VBool false]> (delete_present key_widgets session)
  else session.

(** Store results in session state and schedule the clearing of the keys,
    the end of the handler before [st.rerun()]. *)
Definition store_results (reactive_result : string) (proactive_result : pyval)
    (user_prompt : string) (session : gmap string pyval)
  : gmap string pyval :=
  <["__clear_keys__" := VBool true]>
    (<["last_prompt" := VStr user_prompt]>
       (<["proactive_result" := proactive_result]>
          (<["reactive_result" := VStr reactive_result]> session))).

(** the session the handler leaves: the error paths write nothing *)
Definition session_after (o : outcome) (user_prompt : string)
    (session : gmap string pyval) : gmap string pyval :=
  match o with
  | Results reactive_result proactive_result =>
      store_results reactive_result proactive_result user_prompt session
  | StError _ => session
  end.

(** [if "reactive_result" in st.session_state:], the test of the output
    section *)
Definition shows_results (session : gmap string pyval) : bool :=
  session_has "reactive_result" session.

(** *** Counting the recorded calls *)

Definition is_tavily_event (ev : event) : bool :=
  match ev with TavilyInit _ _ => true | _ => false end.
Definition is_executor_event (ev : event) : bool :=
  match ev with ExecutorInvoke _ _ _ => true | _ => false end.

Definition count_events (f : event -> bool) (evs : list event) : nat :=
  length (List.filter f evs).

(** a character a pasted key may be wrapped in: white space or a quote *)
Definition is_wrapping (c : ascii) : bool :=
  PyStr.isspace c || Ascii.eqb PyStr.dquote c || Ascii.eqb "'" c.

(** a key field left empty or filled with white space only *)
Definition blank_input (key : option string) : bool :=
  match key with
  | None => true
  | Some s => PyStr.all_chars PyStr.isspace s
  end.

(** the same page with another search key typed in *)
Definition with_tavily_input (key : option string) (ss : session_state)
  : session_state :=
  {| gemini_key_input := gemini_key_input ss;
     groq_key_input := groq_key_input ss;
     tavily_key_input := key;
     use_search := use_search ss;
     groq_model := groq_model ss;
     groq_temp := groq_temp ss;
     gemini_model := gemini_model ss;
     gemini_temp := gemini_temp ss |}.

(** *** More mocked collaborators and pages *)

(** every health check fails without a message; the drafting call answers *)
Definition w_silent_check : world := {|
  groq_invoke := fun _ c _ =>
    if bool_decide (chain_prompt c = health_check_prompt)
    then Raise (Exception "")
    else Ok {| content := "Serverless is rising." |};
  tavily_init := fun _ _ _ => Ok tt;
  executor_invoke := executor_invoke Scenarios.w_mock
|}.

(** the first health check passes, the second is refused *)
Definition w_second_check_fails : world := {|
  groq_invoke := fun n _ _ =>
    match n with
    | O => Ok {| content := "OK" |}
    | _ => Raise (Exception "429 rate limit")
    end;
  tavily_init := fun _ _ _ => Ok tt;
  executor_invoke := executor_invoke Scenarios.w_mock
|}.

(** the page [ss0] with search switched off *)
Definition ss_no_search : session_state := {|
  gemini_key_input := gemini_key_input Scenarios.ss0;
  groq_key_input := groq_key_input Scenarios.ss0;
  tavily_key_input := Some "tvly-789";
  use_search := false;
  groq_model := groq_model Scenarios.ss0;
  groq_temp := groq_temp Scenarios.ss0;
  gemini_model := gemini_model Scenarios.ss0;
  gemini_temp := gemini_temp Scenarios.ss0
|}.

(** the page [ss0] with only blanks typed as Groq key *)
Definition ss_blank_key : session_state := {|
  gemini_key_input := gemini_key_input Scenarios.ss0;
  groq_key_input := Some "   ";
  tavily_key_input := tavily_key_input Scenarios.ss0;
  use_search := use_search Scenarios.ss0;
  groq_model := groq_model Scenarios.ss0;
  groq_temp := groq_temp Scenarios.ss0;
  gemini_model := gemini_model Scenarios.ss0;
  gemini_temp := gemini_temp Scenarios.ss0
|}.

(** a session right after a successful run *)
Definition session_after_run : gmap string pyval :=
  store_results "Serverless is rising." (VStr Scenarios.refined_text)
    "The future of serverless computing"
    (<["gemini_key_input" := VStr "AIza_456"]>
       (<["groq_key_input" := VStr "gsk_123"]>
          (<["tavily_key_input" := VStr "tvly-789"]>
             (<["use_search" := VBool true]> ∅)))).

End Page.

(* ===================================================================== *)
(** ** Properties *)
(* ===================================================================== *)

Import Py Agents App Scenarios.

(** *** Strings *)

Lemma startswith_app (p s : string) : PyStr.startswith p (p +:+ s) = true.
Proof.
  induction p as [|a p IH]; [reflexivity|].
  change (String a p +:+ s) with (String a (p +:+ s)).
  simpl. now rewrite Ascii.eqb_refl.
Qed.

Lemma app_nonempty (a : ascii) (p s : string) : String a p +:+ s <> "".
Proof. discriminate. Qed.

Lemma truthy_str_nonempty (s : string) : truthy (VStr s) = true <-> s <> "".
Proof.
  simpl. destruct (String.eqb_spec s ""); simpl; split; congruence.
Qed.

Lemma err_truthy_spec (err : option string) :
  err_truthy err = true <-> exists s, err = Some s /\ s <> "".
Proof.
  destruct err as [s|]; unfold err_truthy.
  - rewrite truthy_str_nonempty. split; [eauto|]. now intros (s' & [= <-] & ?).
  - simpl. split; [discriminate|]. now intros (s' & [=] & ?).
Qed.

(** *** The monad *)

Ltac unfold_monad :=
  unfold bind, ret, raise, try_except, call, setenv in *; simpl in *.

(** *** The credential validator *)

Lemma validate_groq_key_eq (w : world) (api_key model : string) (st : state) :
  validate_groq_key w api_key model st =
    (Ok (match groq_invoke w (length (trace st))
                 (health_check_chain api_key model) "" with
         | Ok _ => None
         | Raise e => Some (exn_str e)
         end),
     record (GroqInvoke (health_check_chain api_key model) "") st).
Proof.
  unfold validate_groq_key. unfold_monad.
  now destruct (groq_invoke w _ _ _).
Qed.

(** C5, as the code has it: [validate_groq_key] never raises; it returns
    [None] exactly when the health-check call succeeds, and when that call
    raises [e] it returns [str(e)], a string that is empty when the exception
    carries no message. *)
Theorem validate_groq_key_spec (w : world) (api_key model : string) (st : state) :
  let answer :=
    groq_invoke w (length (trace st)) (health_check_chain api_key model) "" in
  exists (r : option string) (st' : state),
    validate_groq_key w api_key model st = (Ok r, st') /\
    (r = None <-> exists m, answer = Ok m) /\
    (forall e, answer = Raise e -> r = Some (exn_str e)).
Proof.
  intros answer. rewrite validate_groq_key_eq. fold answer.
  eexists _, _. split; [reflexivity|].
  destruct answer as [m|e]; split.
  - split; eauto.
  - discriminate.
  - split; [discriminate|]. now intros [m [=]].
  - now intros e' [= ->].
Qed.

(** C5 as stated fails: a health check that raises an exception without a
    message makes [validate_groq_key] return the empty string, not a
    non-empty error message. *)
Lemma validate_groq_key_empty_message :
  groq_invoke w_silent_failure 0 (health_check_chain "gsk_123" "llama-3.1-8b-instant") ""
    = Raise (Exception "") /\
  fst (validate_groq_key w_silent_failure "gsk_123" "llama-3.1-8b-instant" st0)
    = Ok (Some "").
Proof. split; reflexivity. Qed.

(** *** The refinement agent *)

Lemma search_wanted_spec (use_search : bool) (tavily_api_key : option string) :
  search_wanted use_search tavily_api_key = true <->
  use_search = true /\ exists key, tavily_api_key = Some key /\ key <> "".
Proof.
  unfold search_wanted. rewrite andb_true_iff, err_truthy_spec. tauto.
Qed.

Lemma key_refused_spec (use_search : bool) (tavily_api_key : option string) :
  key_refused use_search tavily_api_key
    = use_search && err_truthy tavily_api_key
      && PyStr.mem "000"%char (default "" tavily_api_key).
Proof. reflexivity. Qed.

Lemma key_refused_not_wanted (use_search : bool)
    (tavily_api_key : option string) :
  search_wanted use_search tavily_api_key = false ->
  key_refused use_search tavily_api_key = false.
Proof. unfold key_refused. now intros ->. Qed.

Lemma create_proactive_agent_eq (w : world) (api_key model_name : string)
    (temperature : Qc) (use_search : bool) (tavily_api_key : option string)
    (st : state) :
  create_proactive_agent w api_key model_name temperature use_search
                         tavily_api_key st =
    if key_refused use_search tavily_api_key then
      (Raise (ValueError "embedded null byte"), st)
    else
      (Ok (executor_with api_key model_name temperature
             (search_tools w (length (trace st)) use_search tavily_api_key)),
       agent_created use_search tavily_api_key st).
Proof.
  unfold create_proactive_agent, search_tools, agent_created, environ_after,
    executor_with, key_refused.
  destruct (search_wanted use_search tavily_api_key) eqn:Hwanted.
  - apply search_wanted_spec in Hwanted as (_ & key & -> & _).
    cbn [andb default from_option id]. unfold default, from_option, id.
    unfold bind at 1. unfold bind at 1. unfold setenv.
    change (PyStr.mem "000"%char "TAVILY_API_KEY") with false.
    cbn [orb].
    destruct (PyStr.mem "000"%char key); [reflexivity|].
    unfold_monad. rewrite lookup_insert_eq.
    now destruct (tavily_init w _ _ _).
  - unfold_monad. rewrite app_nil_r. now destruct st.
Qed.

Lemma refinement_answer_eq (w : world) (prompt api_key model_name : string)
    (temperature : Qc) (use_search : bool) (tavily_key : option string)
    (draft_content : string) (st : state) :
  executor_invoke w
    (length (trace (agent_created use_search tavily_key st)))
    (executor_with api_key model_name temperature
       (search_tools w (length (trace st)) use_search tavily_key))
    draft_content prompt
  = refinement_answer w prompt api_key model_name temperature use_search
                      tavily_key draft_content st.
Proof.
  unfold refinement_answer, agent_created. simpl.
  rewrite length_app. now destruct (search_wanted use_search tavily_key).
Qed.

Lemma run_proactive_body_eq (w : world) (prompt api_key model_name : string)
    (temperature : Qc) (use_search : bool) (tavily_key : option string)
    (draft_content : string) (st : state) :
  let ex :=
    executor_with api_key model_name temperature
      (search_tools w (length (trace st)) use_search tavily_key) in
  run_proactive_body w prompt api_key model_name temperature use_search
                     tavily_key draft_content st =
    if key_refused use_search tavily_key then
      (Raise (ValueError "embedded null byte"), st)
    else
      (match refinement_answer w prompt api_key model_name temperature
                               use_search tavily_key draft_content st with
       | Ok response => Ok (extract_final_content response)
       | Raise e => Raise e
       end,
       record (ExecutorInvoke ex draft_content prompt)
              (agent_created use_search tavily_key st)).
Proof.
  intros ex. unfold run_proactive_body, bind at 1.
  rewrite create_proactive_agent_eq.
  destruct (key_refused use_search tavily_key); [reflexivity|].
  fold ex. rewrite <- refinement_answer_eq. fold ex.
  unfold_monad. now destruct (executor_invoke w _ _ _ _).
Qed.

Lemma run_proactive_eq (w : world) (prompt api_key model_name : string)
    (temperature : Qc) (use_search : bool) (tavily_key : option string)
    (draft_content : string) (st : state) :
  let ex :=
    executor_with api_key model_name temperature
      (search_tools w (length (trace st)) use_search tavily_key) in
  run_proactive w prompt api_key model_name temperature use_search
                tavily_key draft_content st =
    if key_refused use_search tavily_key then
      (Ok (VStr "Proactive Agent Error: embedded null byte"), st)
    else
      (Ok (match refinement_answer w prompt api_key model_name temperature
                                   use_search tavily_key draft_content st with
           | Ok response => extract_final_content response
           | Raise e => VStr ("Proactive Agent Error: " +:+ exn_str e)
           end),
       record (ExecutorInvoke ex draft_content prompt)
              (agent_created use_search tavily_key st)).
Proof.
  intros ex. unfold run_proactive, try_except.
  rewrite run_proactive_body_eq. fold ex.
  destruct (key_refused use_search tavily_key); [reflexivity|].
  now destruct (refinement_answer w _ _ _ _ _ _ _ _).
Qed.

(** *** Extraction of the final content *)

Lemma extract_final_content_handed_back (response v : pyval) :
  handed_back response = Some v -> extract_final_content response = v.
Proof.
  destruct response; simpl; try discriminate.
  - now intros ->.
  - destruct (truthy (default VNone (assoc "content" attrs))); [|discriminate].
    now intros [= <-].
Qed.

Lemma extract_final_content_str (response : pyval) :
  handed_back response = None -> is_str (extract_final_content response) = true.
Proof.
  destruct response; simpl; try reflexivity.
  - intros ->. destruct (assoc "messages" d) as [[]|]; simpl; try reflexivity.
    now destruct (message_texts l).
  - now destruct (truthy (default VNone (assoc "content" attrs))).
Qed.

Lemma extract_final_content_text (response : pyval) (s : string) :
  provider_text response = Some s -> s <> "" ->
  extract_final_content response = VStr s.
Proof.
  unfold provider_text, extract_final_content, getattr.
  destruct response as [| | |s'|l|d|attrs sf rf]; try discriminate.
  - now intros [= ->].
  - destruct (first_present _ d) as [[]|]; try discriminate. now intros [= ->].
  - destruct (assoc "content" attrs) as [[]|]; try discriminate.
    intros [= ->] Hs. apply truthy_str_nonempty in Hs.
    cbv [default from_option id]. now rewrite Hs.
Qed.

(** *** The draft step *)

Lemma run_reactive_eq (w : world) (prompt api_key model : string)
    (temperature : Qc) (st : state) :
  let out := draft_outcome w prompt api_key model temperature
                           (length (trace st)) in
  run_reactive w prompt api_key model temperature st =
    (Ok (fst out), {| environ := environ st; trace := trace st ++ snd out |}).
Proof.
  unfold run_reactive, run_reactive_body, create_reactive_agent, draft_outcome.
  unfold try_except, bind at 1. rewrite validate_groq_key_eq.
  fold (validation_error w (length (trace st)) api_key model).
  destruct (err_truthy (validation_error w (length (trace st)) api_key model));
    [reflexivity|].
  unfold bind at 1. unfold bind at 1. rewrite validate_groq_key_eq.
  assert (Hlen : length (trace (record (GroqInvoke (health_check_chain api_key model) "") st))
                 = S (length (trace st)))
    by (simpl; rewrite length_app; simpl; lia).
  rewrite Hlen. fold (validation_error w (S (length (trace st))) api_key model).
  destruct (err_truthy (validation_error w (S (length (trace st))) api_key model));
    unfold_monad; unfold record; simpl.
  - now rewrite <- app_assoc.
  - rewrite !length_app. simpl.
    replace (length (trace st) + 1 + 1)%nat with (S (S (length (trace st)))) by lia.
    rewrite <- !app_assoc. simpl.
    now destruct (groq_invoke w _ (reactive_chain _ _ _) _).
Qed.

Lemma run_reactive_try (w : world) (prompt api_key model : string)
    (temperature : Qc) (st : state) :
  exists (d : string) (st1 : state),
    run_reactive w prompt api_key model temperature st = (Ok d, st1) /\
    (run_reactive_body w prompt api_key model temperature st = (Ok d, st1) \/
     exists e,
       run_reactive_body w prompt api_key model temperature st = (Raise e, st1) /\
       d = "Reactive Agent Error: " +:+ exn_str e).
Proof.
  unfold run_reactive, try_except.
  destruct (run_reactive_body w prompt api_key model temperature st)
    as [[d|e] st1]; eexists _, _; (split; [reflexivity|]); eauto.
Qed.

Lemma run_proactive_try (w : world) (prompt api_key model : string)
    (temperature : Qc) (use_search : bool) (tavily_key : option string)
    (d : string) (st : state) :
  exists (p : pyval) (st2 : state),
    run_proactive w prompt api_key model temperature use_search tavily_key d st
      = (Ok p, st2) /\
    (run_proactive_body w prompt api_key model temperature use_search
                        tavily_key d st = (Ok p, st2) \/
     exists e,
       run_proactive_body w prompt api_key model temperature use_search
                          tavily_key d st = (Raise e, st2) /\
       p = VStr ("Proactive Agent Error: " +:+ exn_str e)).
Proof.
  unfold run_proactive, try_except.
  destruct (run_proactive_body w prompt api_key model temperature use_search
                               tavily_key d st)
    as [[p|e] st2]; eexists _, _; (split; [reflexivity|]); eauto.
Qed.

Lemma run_agents_parallel_eq (w : world) (prompt : string)
    (gk gm : string) (gt : Qc) (k m : string) (t : Qc) (us : bool)
    (tk : option string) (st st1 st2 : state) (d : string) (p : pyval) :
  run_reactive w prompt gk gm gt st = (Ok d, st1) ->
  run_proactive w prompt k m t us tk d st1 = (Ok p, st2) ->
  run_agents_parallel w prompt (gk, gm, gt) (k, m, t, us, tk) st
    = (Ok (d, p), st2).
Proof.
  intros Hd Hp. unfold run_agents_parallel, bind. rewrite Hd, Hp. reflexivity.
Qed.

(** *** The dual runner *)

(** C1, as the code has it: [run_agents_parallel] always returns a pair and
    raises nothing. Its first component is the string [run_reactive]'s body
    returns, or, when that body raises [e], the string
    "Reactive Agent Error: " followed by [str(e)]. Its second component is the
    value [run_proactive]'s body returns, or, when that body raises [e], the
    string "Proactive Agent Error: " followed by [str(e)]; it is a string
    unless the provider's result holds something else in its final-output
    field or [content], which is then handed back as it is. *)
Theorem run_agents_parallel_never_raises (w : world) (prompt : string)
    (gk gm : string) (gt : Qc) (k m : string) (t : Qc) (us : bool)
    (tk : option string) (st : state) :
  exists (d : string) (p : pyval) (st1 st2 : state),
    run_agents_parallel w prompt (gk, gm, gt) (k, m, t, us, tk) st
      = (Ok (d, p), st2) /\
    (run_reactive_body w prompt gk gm gt st = (Ok d, st1) \/
     exists e,
       run_reactive_body w prompt gk gm gt st = (Raise e, st1) /\
       d = "Reactive Agent Error: " +:+ exn_str e) /\
    (run_proactive_body w prompt k m t us tk d st1 = (Ok p, st2) \/
     exists e,
       run_proactive_body w prompt k m t us tk d st1 = (Raise e, st2) /\
       p = VStr ("Proactive Agent Error: " +:+ exn_str e)) /\
    (is_str p = true \/
     exists response,
       refinement_answer w prompt k m t us tk d st1 = Ok response /\
       handed_back response = Some p).
Proof.
  destruct (run_reactive_try w prompt gk gm gt st) as (d & st1 & Hd & Hbody).
  destruct (run_proactive_try w prompt k m t us tk d st1) as (p & st2 & Hp & Hbody').
  exists d, p, st1, st2.
  split; [now apply run_agents_parallel_eq with st1|].
  split; [exact Hbody|]. split; [exact Hbody'|].
  destruct Hbody' as [Hok | (e & _ & ->)]; [|now left].
  rewrite run_proactive_body_eq in Hok.
  destruct (key_refused us tk); [discriminate|].
  destruct (refinement_answer w prompt k m t us tk d st1) as [response|e];
    [|discriminate].
  injection Hok as <- _.
  destruct (handed_back response) as [v|] eqn:Hback.
  - right. exists response. split; [reflexivity|].
    now rewrite (extract_final_content_handed_back _ _ Hback).
  - left. now apply extract_final_content_str.
Qed.

(** the spec's scenario with both providers mocked and the tool disabled:
    the pair is the draft and the refined text *)
Example run_agents_parallel_mock :
  fst (run_agents_parallel w_mock "The future of serverless computing"
                           groq_cfg0 gemini_cfg0 st0)
    = Ok ("Serverless is rising.", VStr refined_text).
Proof. reflexivity. Qed.

(** C1 as stated fails: when the second provider's final answer is a list of
    content parts, the second component of the pair is that list, not a
    string. *)
Lemma run_agents_parallel_list_output :
  fst (run_agents_parallel w_list_output "The future of serverless computing"
                           groq_cfg0 gemini_cfg0 st0)
    = Ok ("Serverless is rising.", VList [VStr "final"; VStr "text"]) /\
  is_str (VList [VStr "final"; VStr "text"]) = false.
Proof. split; reflexivity. Qed.

(** C2, as the code has it: for every combination of search setting, tool
    set-up outcome and shape of the provider's result, [run_proactive] raises
    nothing and returns a value. When search is enabled with a non-empty key
    that holds a NUL character, the write to the environment raises, nothing
    is called, and the value is the non-empty string
    "Proactive Agent Error: embedded null byte". Otherwise the executor is
    invoked: when its call raises [e] the value is the non-empty string
    "Proactive Agent Error: " followed by [str(e)]; when it answers, the
    value is the extraction of the answer, and when that answer carries a
    non-empty text (the final-output field of a dict, the [content] of a
    message, or a plain string) it is exactly that text. A final-output
    field or plain string that is empty comes back empty. *)
Theorem run_proactive_never_raises (w : world) (prompt : string)
    (k m : string) (t : Qc) (us : bool) (tk : option string)
    (d : string) (st : state) :
  let refused := us && err_truthy tk && PyStr.mem "000"%char (default "" tk) in
  let answer := refinement_answer w prompt k m t us tk d st in
  exists (p : pyval) (st' : state),
    run_proactive w prompt k m t us tk d st = (Ok p, st') /\
    (refused = true ->
       p = VStr "Proactive Agent Error: embedded null byte" /\
       is_nonempty_str p = true /\ st' = st) /\
    (refused = false ->
       (forall e, answer = Raise e ->
          p = VStr ("Proactive Agent Error: " +:+ exn_str e) /\
          is_nonempty_str p = true) /\
       (forall response, answer = Ok response ->
          p = extract_final_content response /\
          forall s, provider_text response = Some s -> s <> "" ->
                    p = VStr s /\ is_nonempty_str p = true)).
Proof.
  intros refused answer. rewrite run_proactive_eq.
  rewrite key_refused_spec. fold refused answer.
  destruct refused.
  - eexists _, _. split; [reflexivity|]. split; [|discriminate].
    intros _. now repeat split.
  - eexists _, _. split; [reflexivity|]. split; [discriminate|]. intros _.
    destruct answer as [response|e]; split; try discriminate.
    + intros response' [= <-]. split; [reflexivity|].
      intros s Hs Hne. rewrite (extract_final_content_text _ _ Hs Hne).
      split; [reflexivity|]. now destruct s.
    + now intros e' [= <-].
Qed.

(** C2 as stated fails: a dict-shaped result whose final-output field is the
    empty string, and a plain empty string, both make [run_proactive] return
    the empty string. *)
Lemma run_proactive_empty_output :
  fst (run_proactive w_empty_output "The future of serverless computing"
         "AIza_456" "gemini-2.5-flash" 1%Qc false (Some "")
         "Serverless is rising." st0)
    = Ok (VStr "") /\
  extract_final_content (VDict [("output", VStr "")]) = VStr "" /\
  extract_final_content (VStr "") = VStr "" /\
  is_nonempty_str (VStr "") = false.
Proof. repeat split; reflexivity. Qed.

(** uses of [run_proactive_never_raises]: the mocked provider's dict, and a
    search key the environment refuses *)
Lemma run_proactive_never_raises_mock :
  (exists st',
     run_proactive w_mock "The future of serverless computing"
       "AIza_456" "gemini-2.5-flash" 1%Qc false (Some "")
       "Serverless is rising." st0 = (Ok (VStr refined_text), st')) /\
  run_proactive w_mock "The future of serverless computing"
    "AIza_456" "gemini-2.5-flash" 1%Qc true (Some nul_key)
    "Serverless is rising." st0
    = (Ok (VStr "Proactive Agent Error: embedded null byte"), st0).
Proof.
  split.
  - destruct (run_proactive_never_raises w_mock
                "The future of serverless computing" "AIza_456"
                "gemini-2.5-flash" 1%Qc false (Some "")
                "Serverless is rising." st0)
      as (p & st' & Hrun & _ & Hok).
    destruct (Hok eq_refl) as (_ & Hanswer).
    destruct (Hanswer _ eq_refl) as (_ & Htext).
    destruct (Htext refined_text eq_refl) as (-> & _); [discriminate|].
    exists st'. exact Hrun.
  - destruct (run_proactive_never_raises w_mock
                "The future of serverless computing" "AIza_456"
                "gemini-2.5-flash" 1%Qc true (Some nul_key)
                "Serverless is rising." st0)
      as (p & st' & Hrun & Hrefused & _).
    destruct (Hrefused eq_refl) as (-> & _ & ->). exact Hrun.
Defined.

(** *** C3: the extraction policy *)

Lemma first_present_keys (d : list (string * pyval)) :
  first_present ["output"; "output_text"; "final_output"] d =
    match assoc "output" d with
    | Some v => Some v
    | None =>
        match assoc "output_text" d with
        | Some v => Some v
        | None => assoc "final_output" d
        end
    end.
Proof.
  cbn [first_present]. unfold has_key.
  destruct (assoc "output" d); [reflexivity|].
  destruct (assoc "output_text" d); [reflexivity|].
  now destruct (assoc "final_output" d).
Qed.

Lemma message_texts_filter_map (messages : list pyval) :
  message_texts messages =
    map (fun m => str (getattr m "content"))
        (List.filter (fun m => truthy (getattr m "content")) messages).
Proof.
  induction messages as [|m messages IH]; [reflexivity|].
  cbn [message_texts List.filter].
  destruct (truthy (getattr m "content")); [|exact IH].
  cbn [map]. rewrite IH. f_equal. now destruct (getattr m "content").
Qed.

Lemma join_concat (sep : string) (l : list string) :
  PyStr.join sep l = String.concat sep l.
Proof.
  induction l as [|s l IH]; [reflexivity|].
  destruct l as [|s' l]; [reflexivity|].
  change (PyStr.join sep (s :: s' :: l))
    with (s +:+ sep +:+ PyStr.join sep (s' :: l)).
  now rewrite IH.
Qed.

(** C3: the extraction prefers a final-output field of a dict: the value
    under [output] when the dict has that key, else the value under
    [output_text], else the value under [final_output]. With none of the
    three and a list under [messages], it takes, in the order of the list,
    the entries whose [content] is true, and gives the [str] of their
    contents joined with newlines; with no such entry, or without a list
    under [messages], it gives [str] of the dict. A result that is not a
    dict gives its true [content], and failing that its string form. For the
    dict with the one field [output] holding "final text" the result is
    exactly "final text". *)
Theorem extract_final_content_policy :
  (forall d v,
     assoc "output" d = Some v -> extract_final_content (VDict d) = v) /\
  (forall d v,
     assoc "output" d = None -> assoc "output_text" d = Some v ->
     extract_final_content (VDict d) = v) /\
  (forall d v,
     assoc "output" d = None -> assoc "output_text" d = None ->
     assoc "final_output" d = Some v ->
     extract_final_content (VDict d) = v) /\
  (forall d messages,
     assoc "output" d = None -> assoc "output_text" d = None ->
     assoc "final_output" d = None ->
     assoc "messages" d = Some (VList messages) ->
     let texts :=
       map (fun m => str (getattr m "content"))
           (List.filter (fun m => truthy (getattr m "content")) messages) in
     extract_final_content (VDict d) =
       match texts with
       | [] => VStr (str (VDict d))
       | _ => VStr (String.concat (String "010"%char "") texts)
       end) /\
  (forall d,
     assoc "output" d = None -> assoc "output_text" d = None ->
     assoc "final_output" d = None ->
     (forall messages, assoc "messages" d <> Some (VList messages)) ->
     extract_final_content (VDict d) = VStr (str (VDict d))) /\
  (forall response,
     is_dict response = false ->
     truthy (getattr response "content") = true ->
     extract_final_content response = getattr response "content") /\
  (forall response,
     is_dict response = false ->
     truthy (getattr response "content") = false ->
     extract_final_content response = VStr (str response)) /\
  extract_final_content (VDict [("output", VStr "final text")])
    = VStr "final text".
Proof.
  repeat split.
  - intros d v Hv. unfold extract_final_content.
    now rewrite first_present_keys, Hv.
  - intros d v H1 Hv. unfold extract_final_content.
    now rewrite first_present_keys, H1, Hv.
  - intros d v H1 H2 Hv. unfold extract_final_content.
    now rewrite first_present_keys, H1, H2, Hv.
  - intros d messages H1 H2 H3 Hmsgs texts.
    unfold extract_final_content.
    rewrite first_present_keys, H1, H2, H3, Hmsgs.
    rewrite message_texts_filter_map. fold texts.
    destruct texts; [reflexivity|]. now rewrite join_concat.
  - intros d H1 H2 H3 Hmsgs. unfold extract_final_content.
    rewrite first_present_keys, H1, H2, H3.
    destruct (assoc "messages" d) as [[]|]; try reflexivity.
    now destruct (Hmsgs l).
  - intros response Hdict Hcontent.
    destruct response; try discriminate; simpl in *; try discriminate.
    now rewrite Hcontent.
  - intros response Hdict Hcontent.
    destruct response; try discriminate; simpl in *; try reflexivity.
    now rewrite Hcontent.
Qed.

(** the texts of the messages come in the order of the messages *)
Lemma message_texts_app (l1 l2 : list pyval) :
  message_texts (l1 ++ l2) = message_texts l1 ++ message_texts l2.
Proof.
  induction l1 as [|m l1 IH]; [reflexivity|].
  simpl. destruct (truthy (getattr m "content")); simpl; now rewrite IH.
Qed.

(** uses of [extract_final_content_policy] on the three shapes *)
Lemma extract_final_content_policy_shapes :
  extract_final_content
    (VDict [("final_output", VStr "last"); ("input", VStr "x");
            ("output_text", VStr "final text")])
    = VStr "final text" /\
  extract_final_content (VDict [("messages", VList three_messages)])
    = VStr ("first" +:+ nl +:+ "second") /\
  extract_final_content (VDict [("steps", VInt 3)]) = VStr "{'steps': 3}" /\
  extract_final_content (VObj [("content", VStr "final text")] "msg" "msg")
    = VStr "final text" /\
  extract_final_content (VInt 7) = VStr "7".
Proof.
  destruct extract_final_content_policy
    as (_ & H2 & _ & H4 & H5 & H6 & H7 & _).
  split; [now apply H2|].
  split; [exact (H4 [("messages", VList three_messages)] three_messages
                    eq_refl eq_refl eq_refl eq_refl)|].
  split; [rewrite H5; [reflexivity|reflexivity..|discriminate]|].
  split; [now rewrite H6|].
  now rewrite H7.
Defined.

(** *** C4: the draft comes first, and a failed draft is refined all the same *)

Lemma draft_outcome_events (w : world) (prompt api_key model : string)
    (temperature : Qc) (n : nat) :
  forallb is_draft_event
    (snd (draft_outcome w prompt api_key model temperature n)) = true.
Proof.
  unfold draft_outcome.
  destruct (err_truthy (validation_error w n api_key model)); [reflexivity|].
  now destruct (err_truthy (validation_error w (S n) api_key model)).
Qed.

Lemma draft_outcome_validation_failed (w : world) (prompt api_key model : string)
    (temperature : Qc) (n : nat) :
  err_truthy (validation_error w n api_key model) = true ->
  fst (draft_outcome w prompt api_key model temperature n)
    = "Reactive Agent Error: " +:+ default "" (validation_error w n api_key model).
Proof. unfold draft_outcome. now intros ->. Qed.

(** C4: [run_agents_parallel] is [run_reactive] followed by [run_proactive]
    on the draft the first returned, and the calls of the draft step all
    come before the calls of the refinement step. Whether the draft failed
    plays no part in what the refinement step does: unless the search key is
    one the environment refuses (search enabled, key with a NUL character,
    in which case the refinement step makes no call and gives its own error
    string), its calls end with the executor invoked on that draft and the
    topic, and the second component is the extraction of the executor's
    answer to that call, or the error string of the refinement. When the
    draft step fails, by an exception raised under its [try] or by a
    validation that reports an error, the draft starts with
    "Reactive Agent Error:", and it is that text the refinement step is
    run on. *)
Theorem refinement_follows_draft (w : world) (prompt : string)
    (gk gm : string) (gt : Qc) (k m : string) (t : Qc) (us : bool)
    (tk : option string) (st : state) :
  let refused := us && err_truthy tk && PyStr.mem "000"%char (default "" tk) in
  exists (d : string) (p : pyval) (st1 st2 : state)
         (draft_calls refinement_calls : list event),
    run_agents_parallel w prompt (gk, gm, gt) (k, m, t, us, tk) st
      = (Ok (d, p), st2) /\
    run_reactive w prompt gk gm gt st = (Ok d, st1) /\
    run_proactive w prompt k m t us tk d st1 = (Ok p, st2) /\
    trace st1 = trace st ++ draft_calls /\
    trace st2 = trace st1 ++ refinement_calls /\
    forallb is_draft_event draft_calls = true /\
    forallb is_refinement_event refinement_calls = true /\
    (if refused then
       refinement_calls = [] /\
       p = VStr "Proactive Agent Error: embedded null byte"
     else
       (exists ex, last refinement_calls = Some (ExecutorInvoke ex d prompt)) /\
       p = match refinement_answer w prompt k m t us tk d st1 with
           | Ok response => extract_final_content response
           | Raise e => VStr ("Proactive Agent Error: " +:+ exn_str e)
           end) /\
    (forall e, fst (run_reactive_body w prompt gk gm gt st) = Raise e ->
       d = "Reactive Agent Error: " +:+ exn_str e /\
       PyStr.startswith "Reactive Agent Error:" d = true) /\
    (err_truthy (validation_error w (length (trace st)) gk gm) = true ->
       PyStr.startswith "Reactive Agent Error:" d = true).
Proof.
  intros refused.
  pose proof (run_reactive_eq w prompt gk gm gt st) as Hd. cbv zeta in Hd.
  set (out := draft_outcome w prompt gk gm gt (length (trace st))) in *.
  set (st1 := {| environ := environ st; trace := trace st ++ snd out |}) in *.
  pose proof (run_proactive_eq w prompt k m t us tk (fst out) st1) as Hp.
  cbv zeta in Hp. rewrite key_refused_spec in Hp. fold refused in Hp.
  assert (Hdraft :
    (forall e, fst (run_reactive_body w prompt gk gm gt st) = Raise e ->
       fst out = "Reactive Agent Error: " +:+ exn_str e /\
       PyStr.startswith "Reactive Agent Error:" (fst out) = true) /\
    (err_truthy (validation_error w (length (trace st)) gk gm) = true ->
       PyStr.startswith "Reactive Agent Error:" (fst out) = true)).
  { split.
    - intros e He. unfold run_reactive, try_except in Hd.
      destruct (run_reactive_body w prompt gk gm gt st) as [[d'|e'] st'];
        simpl in He; [discriminate|].
      injection He as ->. injection Hd as Hd _. rewrite <- Hd.
      split; [reflexivity|].
      apply (startswith_app "Reactive Agent Error:" (String " " _)).
    - intros Herr. subst out.
      rewrite draft_outcome_validation_failed by exact Herr.
      apply (startswith_app "Reactive Agent Error:" (String " " _)). }
  destruct refused.
  - exists (fst out), (VStr "Proactive Agent Error: embedded null byte"),
      st1, st1, (snd out), [].
    split; [eapply run_agents_parallel_eq; eassumption|].
    split; [exact Hd|]. split; [exact Hp|].
    split; [reflexivity|]. split; [now rewrite app_nil_r|].
    split; [apply draft_outcome_events|].
    split; [reflexivity|]. split; [now split|]. exact Hdraft.
  - eexists (fst out), _, st1, _, (snd out), _.
    split; [eapply run_agents_parallel_eq; eassumption|].
    split; [exact Hd|]. split; [exact Hp|].
    split; [reflexivity|].
    split; [simpl; rewrite <- app_assoc; reflexivity|].
    split; [apply draft_outcome_events|].
    split; [now destruct (search_wanted us tk)|].
    split; [|exact Hdraft].
    split; [|reflexivity].
    eexists. now destruct (search_wanted us tk).
Qed.

(** the spec's scenario: the fast provider rejects the key, the draft is the
    error text, and the refinement is computed from that text *)
Lemma refinement_follows_draft_auth_error :
  fst (run_agents_parallel w_auth_error "The future of serverless computing"
                           groq_cfg0 gemini_cfg0 st0)
    = Ok ("Reactive Agent Error: 401 Invalid API Key",
          VStr "Refined: Reactive Agent Error: 401 Invalid API Key").
Proof.
  destruct (refinement_follows_draft w_auth_error
              "The future of serverless computing"
              "gsk_123" "llama-3.1-8b-instant" 0%Qc
              "AIza_456" "gemini-2.5-flash" 1%Qc false (Some "") st0)
    as (d & p & st1 & st2 & dc & rc & Hrun & Hd & _ & _ & _ & _ & _ & Hp & _).
  unfold groq_cfg0, gemini_cfg0. rewrite Hrun.
  injection Hd as <- <-. cbn in Hp. destruct Hp as (_ & ->). reflexivity.
Defined.

(** *** C6: the calls of a validated draft *)

(** C6, as the code has it: when the health check answers both times it is
    made, by [run_reactive] and again by [create_reactive_agent], the draft
    step makes three calls to the fast provider: the two health checks and
    then one call of the reactive chain, its fixed system instruction and
    the topic as input. [run_reactive] returns the [content] of the answer
    to that last call unchanged, or the error string of the exception it
    raises. *)
Theorem run_reactive_three_calls (w : world) (prompt : string)
    (api_key model : string) (temperature : Qc) (st : state)
    (r1 r2 : AIMessage)
    (Hcheck1 : groq_invoke w (length (trace st))
                 (health_check_chain api_key model) "" = Ok r1)
    (Hcheck2 : groq_invoke w (S (length (trace st)))
                 (health_check_chain api_key model) "" = Ok r2) :
  let check := health_check_chain api_key model in
  let c := reactive_chain api_key model temperature in
  let answer := groq_invoke w (S (S (length (trace st)))) c prompt in
  exists (d : string) (st' : state),
    run_reactive w prompt api_key model temperature st = (Ok d, st') /\
    trace st' = trace st ++ [GroqInvoke check ""; GroqInvoke check "";
                             GroqInvoke c prompt] /\
    environ st' = environ st /\
    (forall response, answer = Ok response -> d = content response) /\
    (forall e, answer = Raise e -> d = "Reactive Agent Error: " +:+ exn_str e).
Proof.
  intros check c answer. rewrite run_reactive_eq.
  unfold draft_outcome, validation_error. rewrite Hcheck1, Hcheck2. simpl.
  eexists _, _. split; [reflexivity|]. split; [reflexivity|].
  split; [reflexivity|].
  fold c answer.
  split; [now intros response ->|now intros e ->].
Qed.

(** a use of [run_reactive_three_calls]: the mocked fast provider *)
Lemma run_reactive_three_calls_mock :
  fst (run_reactive w_mock "The future of serverless computing"
                    "gsk_123" "llama-3.1-8b-instant" 0%Qc st0)
    = Ok "Serverless is rising.".
Proof.
  destruct (run_reactive_three_calls w_mock
              "The future of serverless computing"
              "gsk_123" "llama-3.1-8b-instant" 0%Qc st0
              {| content := "OK" |} {| content := "OK" |} eq_refl eq_refl)
    as (d & st' & Hrun & _ & _ & Hcontent & _).
  rewrite Hrun. simpl. f_equal. exact (Hcontent _ eq_refl).
Defined.

(** C6 as stated fails: with a key and a model that pass validation, the
    draft step makes three calls to the fast provider, not one: two health
    checks, then the drafting call. *)
Lemma run_reactive_makes_three_calls :
  fst (validate_groq_key w_mock "gsk_123" "llama-3.1-8b-instant" st0)
    = Ok None /\
  trace (snd (run_reactive w_mock "The future of serverless computing"
                "gsk_123" "llama-3.1-8b-instant" 0%Qc st0))
    = [ GroqInvoke (health_check_chain "gsk_123" "llama-3.1-8b-instant") "";
        GroqInvoke (health_check_chain "gsk_123" "llama-3.1-8b-instant") "";
        GroqInvoke (reactive_chain "gsk_123" "llama-3.1-8b-instant" 0%Qc)
                   "The future of serverless computing" ] /\
  length (trace (snd (run_reactive w_mock "The future of serverless computing"
                        "gsk_123" "llama-3.1-8b-instant" 0%Qc st0)))
    = 3%nat.
Proof. repeat split; reflexivity. Qed.

(** *** C7: the search tool *)

(** C7: [create_proactive_agent] tries to set up the search tool only when
    search is enabled and the key is a non-empty string, and then once, after
    the key went into the environment; with search disabled, or a key that
    is empty or missing, no set-up is tried and the executor has no tool.
    When the set-up raises, the executor is created all the same, without
    the tool; when it succeeds the executor has the tool. [run_proactive]
    then invokes that executor. (No executor is created, and no set-up
    tried, when the environment refuses the key for a NUL character.) *)
Theorem search_tool_only_when_wanted (w : world) (prompt : string)
    (k m : string) (t : Qc) (us : bool) (tk : option string)
    (d : string) (st : state) :
  let wanted := us && err_truthy tk in
  let refused := wanted && PyStr.mem "000"%char (default "" tk) in
  let attempt := tavily_init w (length (trace st)) 5%nat tk in
  exists (r : result AgentExecutor) (st' : state),
    create_proactive_agent w k m t us tk st = (r, st') /\
    trace st' = trace st ++
                (if wanted && negb refused then [TavilyInit 5 tk] else []) /\
    (wanted = true <-> us = true /\ exists key, tk = Some key /\ key <> "") /\
    (if refused then
       r = Raise (ValueError "embedded null byte") /\ st' = st
     else
       exists ex : AgentExecutor,
         r = Ok ex /\
         agent_tools ex = tools ex /\
         tools ex =
           (if wanted then
              match attempt with
              | Ok _ => [ {| max_results := 5; tavily_key_used := tk |} ]
              | Raise _ => []
              end
            else []) /\
         trace (snd (run_proactive w prompt k m t us tk d st))
           = trace st' ++ [ExecutorInvoke ex d prompt]).
Proof.
  intros wanted refused attempt. rewrite create_proactive_agent_eq.
  rewrite key_refused_spec. fold wanted refused.
  destruct refused eqn:Hrefused.
  - eexists _, _. split; [reflexivity|].
    rewrite andb_false_r. split; [now rewrite app_nil_r|].
    split; [apply search_wanted_spec|]. now split.
  - eexists _, _. split; [reflexivity|].
    rewrite andb_true_r. split; [reflexivity|].
    split; [apply search_wanted_spec|].
    eexists. split; [reflexivity|]. split; [reflexivity|].
    split; [reflexivity|].
    rewrite run_proactive_eq, key_refused_spec. fold wanted refused.
    now rewrite Hrefused.
Qed.

(** uses of [search_tool_only_when_wanted]: search enabled with an empty
    key, and a tool that cannot be set up *)
Lemma search_tool_only_when_wanted_scenarios :
  (exists st',
     create_proactive_agent w_mock "AIza_456" "gemini-2.5-flash" 1%Qc
                            true (Some "") st0
       = (Ok (executor_with "AIza_456" "gemini-2.5-flash" 1%Qc []), st') /\
     trace st' = []) /\
  (exists st',
     create_proactive_agent w_no_tool "AIza_456" "gemini-2.5-flash" 1%Qc
                            true (Some "tvly-789") st0
       = (Ok (executor_with "AIza_456" "gemini-2.5-flash" 1%Qc []), st') /\
     trace st' = [TavilyInit 5 (Some "tvly-789")]).
Proof.
  split.
  - destruct (search_tool_only_when_wanted w_mock "topic" "AIza_456"
                "gemini-2.5-flash" 1%Qc true (Some "") "draft" st0)
      as (r & st' & Hrun & Htrace & _).
    exists st'. split; [|exact Htrace].
    rewrite Hrun. rewrite create_proactive_agent_eq in Hrun.
    injection Hrun as <- _. reflexivity.
  - destruct (search_tool_only_when_wanted w_no_tool "topic" "AIza_456"
                "gemini-2.5-flash" 1%Qc true (Some "tvly-789") "draft" st0)
      as (r & st' & Hrun & Htrace & _).
    exists st'. split; [|exact Htrace].
    rewrite Hrun. rewrite create_proactive_agent_eq in Hrun.
    injection Hrun as <- _. reflexivity.
Defined.

(** the pair [run_agents_parallel] returns, spelled out *)
Lemma run_agents_parallel_fst (w : world) (prompt : string)
    (gk gm : string) (gt : Qc) (k m : string) (t : Qc) (us : bool)
    (tk : option string) (st : state) :
  let out := draft_outcome w prompt gk gm gt (length (trace st)) in
  let st1 := {| environ := environ st; trace := trace st ++ snd out |} in
  fst (run_agents_parallel w prompt (gk, gm, gt) (k, m, t, us, tk) st)
    = Ok (fst out,
          if key_refused us tk then
            VStr "Proactive Agent Error: embedded null byte"
          else
            match refinement_answer w prompt k m t us tk (fst out) st1 with
            | Ok response => extract_final_content response
            | Raise e => VStr ("Proactive Agent Error: " +:+ exn_str e)
            end).
Proof.
  intros out st1.
  pose proof (run_reactive_eq w prompt gk gm gt st) as Hd. cbv zeta in Hd.
  fold out st1 in Hd.
  pose proof (run_proactive_eq w prompt k m t us tk (fst out) st1) as Hp.
  cbv zeta in Hp.
  destruct (key_refused us tk);
    now rewrite (run_agents_parallel_eq _ _ _ _ _ _ _ _ _ _ _ _ _ _ _ Hd Hp).
Qed.

(** *** C8: the search key in the process environment *)

Lemma run_agents_parallel_environ (w : world) (prompt : string)
    (gk gm : string) (gt : Qc) (k m : string) (t : Qc) (us : bool)
    (tk : option string) (st : state) :
  environ (snd (run_agents_parallel w prompt (gk, gm, gt) (k, m, t, us, tk) st))
    = if key_refused us tk then environ st
      else environ_after us tk (environ st).
Proof.
  pose proof (run_reactive_eq w prompt gk gm gt st) as Hd. cbv zeta in Hd.
  set (out := draft_outcome w prompt gk gm gt (length (trace st))) in *.
  set (st1 := {| environ := environ st; trace := trace st ++ snd out |}) in *.
  pose proof (run_proactive_eq w prompt k m t us tk (fst out) st1) as Hp.
  cbv zeta in Hp.
  destruct (key_refused us tk);
    now rewrite (run_agents_parallel_eq _ _ _ _ _ _ _ _ _ _ _ _ _ _ _ Hd Hp).
Qed.

(** C8, as the code has it: [create_proactive_agent] sets [TAVILY_API_KEY]
    to the search key when search is enabled and the key is a non-empty
    string without a NUL character, and leaves the environment as it was
    otherwise: with search disabled, with a key that is empty or missing,
    and with a key that holds a NUL character, which the assignment refuses.
    Nothing else in the module writes to the environment: the health check
    and the draft step leave it unchanged, and at the end of [run_proactive]
    and of [run_agents_parallel] it is as [create_proactive_agent] left it,
    a key that was written still in place. *)
Theorem tavily_key_stays_in_environ (w : world) (prompt : string)
    (gk gm : string) (gt : Qc) (k m : string) (t : Qc) (us : bool)
    (tk : option string) (d : string) (st : state) :
  let wanted := us && err_truthy tk in
  let refused := wanted && PyStr.mem "000"%char (default "" tk) in
  let env' :=
    if wanted && negb refused
    then <["TAVILY_API_KEY" := default "" tk]> (environ st)
    else environ st in
  environ (snd (create_proactive_agent w k m t us tk st)) = env' /\
  environ (snd (run_proactive w prompt k m t us tk d st)) = env' /\
  environ (snd (validate_groq_key w gk gm st)) = environ st /\
  environ (snd (run_reactive w prompt gk gm gt st)) = environ st /\
  environ (snd (run_agents_parallel w prompt (gk, gm, gt) (k, m, t, us, tk) st))
    = env' /\
  (wanted = true -> refused = false -> env' !! "TAVILY_API_KEY" = tk).
Proof.
  intros wanted refused env'.
  assert (Henv : (if key_refused us tk then environ st
                  else environ_after us tk (environ st)) = env').
  { subst env'. rewrite key_refused_spec. fold wanted refused.
    unfold environ_after, search_wanted. fold wanted.
    destruct refused; [now rewrite andb_false_r|now rewrite andb_true_r]. }
  split.
  { rewrite create_proactive_agent_eq, <- Henv.
    now destruct (key_refused us tk). }
  split.
  { rewrite run_proactive_eq, <- Henv. now destruct (key_refused us tk). }
  split; [now rewrite validate_groq_key_eq|].
  split; [now rewrite run_reactive_eq|].
  split; [now rewrite run_agents_parallel_environ|].
  intros Hwanted Hrefused. subst env'. rewrite Hwanted, Hrefused.
  apply search_wanted_spec in Hwanted as (_ & key & -> & _).
  apply lookup_insert_eq.
Qed.

(** a use of [tavily_key_stays_in_environ]: after a run with search enabled
    the key is in the environment, and a later run with search disabled
    leaves it there *)
Lemma tavily_key_stays_in_environ_two_runs :
  let st1 := snd (run_agents_parallel w_mock "first topic" groq_cfg0
                                      gemini_cfg_search st0) in
  let st2 := snd (run_agents_parallel w_mock "second topic" groq_cfg0
                                      gemini_cfg0 st1) in
  environ st0 !! "TAVILY_API_KEY" = None /\
  environ st1 !! "TAVILY_API_KEY" = Some "tvly-789" /\
  environ st2 !! "TAVILY_API_KEY" = Some "tvly-789".
Proof.
  intros st1 st2.
  destruct (tavily_key_stays_in_environ w_mock "first topic"
              "gsk_123" "llama-3.1-8b-instant" 0%Qc
              "AIza_456" "gemini-2.5-flash" 1%Qc true (Some "tvly-789")
              "draft" st0) as (_ & _ & _ & _ & Hrun1 & Hkey1).
  destruct (tavily_key_stays_in_environ w_mock "second topic"
              "gsk_123" "llama-3.1-8b-instant" 0%Qc
              "AIza_456" "gemini-2.5-flash" 1%Qc false (Some "")
              "draft" st1) as (_ & _ & _ & _ & Hrun2 & _).
  split; [reflexivity|].
  assert (H1 : environ st1 !! "TAVILY_API_KEY" = Some "tvly-789").
  { subst st1. unfold groq_cfg0, gemini_cfg_search. rewrite Hrun1.
    exact (Hkey1 eq_refl eq_refl). }
  split; [exact H1|].
  subst st2. unfold groq_cfg0, gemini_cfg0. rewrite Hrun2. exact H1.
Defined.

(** C8 as stated fails: with search enabled and a search key supplied that
    holds a NUL character, creating the refinement agent raises and writes
    nothing: the environment has no [TAVILY_API_KEY] afterwards. *)
Lemma tavily_key_refused_by_environ :
  create_proactive_agent w_mock "AIza_456" "gemini-2.5-flash" 1%Qc
                         true (Some nul_key) st0
    = (Raise (ValueError "embedded null byte"), st0) /\
  environ (snd (run_agents_parallel w_mock "The future of serverless computing"
                  groq_cfg0 gemini_cfg_nul st0))
    !! "TAVILY_API_KEY" = None /\
  fst (run_agents_parallel w_mock "The future of serverless computing"
         groq_cfg0 gemini_cfg_nul st0)
    = Ok ("Serverless is rising.",
          VStr "Proactive Agent Error: embedded null byte").
Proof. repeat split; reflexivity. Qed.

(** *** C9: the API keys reach the results through the providers only *)

Lemma validation_error_blind (w : world) (n : nat) (gk gk' gm : string) :
  key_blind w ->
  validation_error w n gk gm = validation_error w n gk' gm.
Proof.
  intros [Hgroq _]. unfold validation_error.
  now rewrite (Hgroq n (health_check_chain gk gm) (health_check_chain gk' gm)).
Qed.

Lemma draft_outcome_blind (w : world) (prompt gk gk' gm : string) (gt : Qc)
    (n : nat) :
  key_blind w ->
  fst (draft_outcome w prompt gk gm gt n) = fst (draft_outcome w prompt gk' gm gt n) /\
  length (snd (draft_outcome w prompt gk gm gt n))
    = length (snd (draft_outcome w prompt gk' gm gt n)).
Proof.
  intros Hblind. unfold draft_outcome.
  rewrite (validation_error_blind w n gk gk' gm Hblind).
  destruct (err_truthy (validation_error w n gk' gm)); [now split|].
  rewrite (validation_error_blind w (S n) gk gk' gm Hblind).
  destruct (err_truthy (validation_error w (S n) gk' gm)); [now split|].
  destruct Hblind as [Hgroq _].
  rewrite (Hgroq (S (S n)) (reactive_chain gk gm gt) (reactive_chain gk' gm gt))
    by reflexivity.
  now split.
Qed.

Lemma refinement_answer_blind (w : world) (prompt k k' m : string) (t : Qc)
    (us : bool) (tk : option string) (d : string) (st st' : state) :
  key_blind w ->
  length (trace st) = length (trace st') ->
  refinement_answer w prompt k m t us tk d st
    = refinement_answer w prompt k' m t us tk d st'.
Proof.
  intros [_ Hexec] Hlen. unfold refinement_answer. rewrite Hlen.
  now apply Hexec.
Qed.

(** C9, as the code has it: nothing in the module puts an API key into a
    result; the keys reach the results through the providers' answers only.
    When the providers answer the same whatever key they are called with,
    [run_agents_parallel] returns the same pair, and [validate_groq_key] the
    same value, for any two pairs of keys. *)
Theorem api_keys_only_through_providers (w : world) (Hblind : key_blind w)
    (prompt : string) (gk gk' gm : string) (gt : Qc) (k k' m : string)
    (t : Qc) (us : bool) (tk : option string) (st : state) :
  fst (run_agents_parallel w prompt (gk, gm, gt) (k, m, t, us, tk) st)
    = fst (run_agents_parallel w prompt (gk', gm, gt) (k', m, t, us, tk) st) /\
  fst (validate_groq_key w gk gm st) = fst (validate_groq_key w gk' gm st).
Proof.
  split.
  - pose proof (draft_outcome_blind w prompt gk gk' gm gt (length (trace st)) Hblind)
      as [Hdraft Hlen].
    rewrite !run_agents_parallel_fst. rewrite Hdraft.
    rewrite (refinement_answer_blind w prompt k k' m t us tk _ _
               {| environ := environ st;
                  trace := trace st ++ snd (draft_outcome w prompt gk' gm gt
                                              (length (trace st))) |} Hblind).
    + reflexivity.
    + simpl. rewrite !length_app. now rewrite Hlen.
  - rewrite !validate_groq_key_eq. simpl.
    fold (validation_error w (length (trace st)) gk gm).
    fold (validation_error w (length (trace st)) gk' gm).
    now rewrite (validation_error_blind w _ gk gk' gm Hblind).
Qed.

Lemma w_mock_key_blind : key_blind w_mock.
Proof.
  split.
  - intros n c c' input Heq. simpl.
    assert (Hprompt : chain_prompt c = chain_prompt c')
      by exact (f_equal chain_prompt Heq).
    now rewrite Hprompt.
  - reflexivity.
Defined.

(** a use of [api_keys_only_through_providers]: two runs that differ in
    their keys only *)
Lemma api_keys_only_through_providers_mock :
  fst (run_agents_parallel w_mock "The future of serverless computing"
         ("gsk_123", "llama-3.1-8b-instant", 0%Qc)
         ("AIza_456", "gemini-2.5-flash", 1%Qc, false, Some "") st0)
  = fst (run_agents_parallel w_mock "The future of serverless computing"
           ("gsk_abc", "llama-3.1-8b-instant", 0%Qc)
           ("AIza_def", "gemini-2.5-flash", 1%Qc, false, Some "") st0).
Proof.
  exact (proj1 (api_keys_only_through_providers w_mock w_mock_key_blind
                  "The future of serverless computing"
                  "gsk_123" "gsk_abc" "llama-3.1-8b-instant" 0%Qc
                  "AIza_456" "AIza_def" "gemini-2.5-flash" 1%Qc
                  false (Some "") st0)).
Defined.

(** C9 as stated fails: when the provider's error message quotes the key,
    the value [validate_groq_key] returns and the first string
    [run_agents_parallel] returns both contain it. *)
Lemma api_key_echoed_by_provider :
  fst (validate_groq_key w_leaky "gsk_123" "llama-3.1-8b-instant" st0)
    = Ok (Some "Invalid API Key: gsk_123") /\
  PyStr.contains "gsk_123" "Invalid API Key: gsk_123" = true /\
  fst (run_agents_parallel w_leaky "The future of serverless computing"
                           groq_cfg0 gemini_cfg0 st0)
    = Ok ("Reactive Agent Error: Invalid API Key: gsk_123",
          VStr refined_text) /\
  PyStr.contains "gsk_123" "Reactive Agent Error: Invalid API Key: gsk_123"
    = true.
Proof. repeat split; reflexivity. Qed.

(** Being a substring is not the right reading either: with a provider that
    never looks at the key, a key that happens to be a word of the error
    prefix is found in the result. *)
Example api_key_found_by_chance :
  fst (run_agents_parallel w_auth_error "The future of serverless computing"
         ("Error", "llama-3.1-8b-instant", 0%Qc) gemini_cfg0 st0)
    = Ok ("Reactive Agent Error: 401 Invalid API Key",
          VStr "Refined: Reactive Agent Error: 401 Invalid API Key") /\
  PyStr.contains "Error" "Reactive Agent Error: 401 Invalid API Key" = true.
Proof. split; reflexivity. Qed.

(** *** C10: the pasted keys *)

Lemma lstrip_spec (p : ascii -> bool) (s : string) :
  exists pre,
    s = pre +:+ PyStr.lstrip p s /\
    PyStr.all_chars p pre = true /\
    match PyStr.first_char (PyStr.lstrip p s) with
    | Some c => p c = false
    | None => True
    end.
Proof.
  induction s as [|c s (pre & Heq & Hall & Hfirst)].
  - now exists "".
  - simpl. destruct (p c) eqn:Hc.
    + exists (String c pre). split; [|split].
      * change (String c pre +:+ PyStr.lstrip p s)
          with (String c (pre +:+ PyStr.lstrip p s)).
        now rewrite <- Heq.
      * simpl. now rewrite Hc.
      * exact Hfirst.
    + now exists "".
Qed.

Lemma rstrip_spec (p : ascii -> bool) (s : string) :
  exists post,
    s = PyStr.rstrip p s +:+ post /\
    PyStr.all_chars p post = true /\
    match PyStr.last_char (PyStr.rstrip p s) with
    | Some c => p c = false
    | None => True
    end.
Proof.
  induction s as [|c s (post & Heq & Hall & Hlast)].
  - now exists "".
  - simpl. destruct (PyStr.rstrip p s) as [|a r] eqn:Hr.
    + change ("" +:+ post) with post in Heq. subst post.
      destruct (p c) eqn:Hc.
      * exists (String c s). simpl. now rewrite Hc.
      * now exists s.
    + exists post. split; [|split].
      * change (String c (String a r) +:+ post)
          with (String c (String a r +:+ post)).
        now rewrite <- Heq.
      * exact Hall.
      * exact Hlast.
Qed.

Lemma rstrip_first_char (p : ascii -> bool) (s : string) :
  PyStr.rstrip p s = "" \/
  PyStr.first_char (PyStr.rstrip p s) = PyStr.first_char s.
Proof.
  destruct s as [|c s]; [now left|].
  simpl. destruct (PyStr.rstrip p s); [|now right].
  destruct (p c); [now left|now right].
Qed.

(** [strip] takes away a run of characters to drop at each end, and what
    it leaves neither starts nor ends with one *)
Lemma strip_spec (p : ascii -> bool) (s : string) :
  exists pre post,
    s = pre +:+ PyStr.strip p s +:+ post /\
    PyStr.all_chars p pre = true /\
    PyStr.all_chars p post = true /\
    PyStr.ends_clean p (PyStr.strip p s) = true.
Proof.
  destruct (lstrip_spec p s) as (pre & Heq & Hpre & Hfirst).
  destruct (rstrip_spec p (PyStr.lstrip p s)) as (post & Heq' & Hpost & Hlast).
  exists pre, post. unfold PyStr.strip, PyStr.ends_clean.
  split; [now rewrite <- Heq'|]. split; [exact Hpre|]. split; [exact Hpost|].
  apply andb_true_iff. split.
  - destruct (rstrip_first_char p (PyStr.lstrip p s)) as [-> | ->];
      [reflexivity|].
    destruct (PyStr.first_char (PyStr.lstrip p s)); [|reflexivity].
    now rewrite Hfirst.
  - destruct (PyStr.last_char (PyStr.rstrip p (PyStr.lstrip p s)));
      [|reflexivity].
    now rewrite Hlast.
Qed.

Lemma mem_single (q c : ascii) : PyStr.mem c (String q "") = Ascii.eqb q c.
Proof. simpl. apply orb_false_r. Qed.

Lemma all_chars_ext (p p' : ascii -> bool) :
  (forall c, p c = p' c) ->
  forall s, PyStr.all_chars p s = PyStr.all_chars p' s.
Proof.
  intros Hext s. induction s as [|c s IH]; [reflexivity|].
  cbn [PyStr.all_chars]. now rewrite Hext, IH.
Qed.

Lemma ends_clean_ext (p p' : ascii -> bool) :
  (forall c, p c = p' c) ->
  forall s, PyStr.ends_clean p s = PyStr.ends_clean p' s.
Proof.
  intros Hext s. unfold PyStr.ends_clean.
  destruct (PyStr.first_char s), (PyStr.last_char s); now rewrite ?Hext.
Qed.

Lemma run_agents_parallel_trace (w : world) (prompt : string)
    (gk gm : string) (gt : Qc) (k m : string) (t : Qc) (us : bool)
    (tk : option string) (st : state) :
  let out := draft_outcome w prompt gk gm gt (length (trace st)) in
  let st1 := {| environ := environ st; trace := trace st ++ snd out |} in
  let ex := executor_with k m t (search_tools w (length (trace st1)) us tk) in
  trace (snd (run_agents_parallel w prompt (gk, gm, gt) (k, m, t, us, tk) st))
    = trace st ++ snd out
      ++ (if key_refused us tk then []
          else (if search_wanted us tk then [TavilyInit 5 tk] else [])
               ++ [ExecutorInvoke ex (fst out) prompt]).
Proof.
  intros out st1 ex.
  pose proof (run_reactive_eq w prompt gk gm gt st) as Hd. cbv zeta in Hd.
  fold out st1 in Hd.
  pose proof (run_proactive_eq w prompt k m t us tk (fst out) st1) as Hp.
  cbv zeta in Hp.
  destruct (key_refused us tk);
    rewrite (run_agents_parallel_eq _ _ _ _ _ _ _ _ _ _ _ _ _ _ _ Hd Hp).
  - simpl. now rewrite app_nil_r.
  - simpl. now rewrite <- !app_assoc.
Qed.

Lemma draft_outcome_carries_keys (w : world) (prompt gk gm : string) (gt : Qc)
    (n : nat) (k tkey : string) :
  Forall (carries_keys gk k tkey) (snd (draft_outcome w prompt gk gm gt n)).
Proof.
  unfold draft_outcome.
  destruct (err_truthy (validation_error w n gk gm));
    [|destruct (err_truthy (validation_error w (S n) gk gm))];
    repeat constructor.
Qed.

Lemma run_agents_parallel_carries_keys (w : world) (prompt : string)
    (gk gm : string) (gt : Qc) (k m : string) (t : Qc) (us : bool)
    (tk : option string) (tkey : string) (st : state) :
  (search_wanted us tk = true -> tk = Some tkey) ->
  exists evs,
    trace (snd (run_agents_parallel w prompt (gk, gm, gt) (k, m, t, us, tk) st))
      = trace st ++ evs /\
    Forall (carries_keys gk k tkey) evs.
Proof.
  intros Htk. rewrite run_agents_parallel_trace.
  eexists. split; [reflexivity|].
  apply Forall_app. split; [apply draft_outcome_carries_keys|].
  destruct (key_refused us tk); [constructor|].
  unfold search_tools.
  destruct (search_wanted us tk).
  - specialize (Htk eq_refl) as ->.
    destruct (tavily_init w _ _ _); repeat constructor.
  - repeat constructor.
Qed.

(** C10: [_sanitize] maps a missing key to the empty string. From a key it
    takes away the white space at both ends, then the double quotes at both
    ends of what is left, then the single quotes at both ends of what is
    left of that; its result neither starts nor ends with a single quote.
    Every call the handler of the button has the agents make carries the
    keys so sanitised: the fast provider is called with the sanitised Groq
    key, the executor with the sanitised Gemini key, and the search tool is
    set up with the sanitised search key. *)
Theorem agents_receive_sanitized_keys :
  _sanitize None = "" /\
  (forall key, exists a b ws1 ws2 dq1 dq2 sq1 sq2,
     key = ws1 +:+ a +:+ ws2 /\
     a = dq1 +:+ b +:+ dq2 /\
     b = sq1 +:+ _sanitize (Some key) +:+ sq2 /\
     PyStr.all_chars PyStr.isspace ws1 = true /\
     PyStr.all_chars PyStr.isspace ws2 = true /\
     PyStr.ends_clean PyStr.isspace a = true /\
     PyStr.all_chars (Ascii.eqb PyStr.dquote) dq1 = true /\
     PyStr.all_chars (Ascii.eqb PyStr.dquote) dq2 = true /\
     PyStr.ends_clean (Ascii.eqb PyStr.dquote) b = true /\
     PyStr.all_chars (Ascii.eqb "'") sq1 = true /\
     PyStr.all_chars (Ascii.eqb "'") sq2 = true /\
     PyStr.ends_clean (Ascii.eqb "'") (_sanitize (Some key)) = true) /\
  (forall w user_prompt ss st, exists evs,
     trace (snd (on_run_click w user_prompt ss st)) = trace st ++ evs /\
     Forall (carries_keys (_sanitize (groq_key_input ss))
                          (_sanitize (gemini_key_input ss))
                          (_sanitize (tavily_key_input ss))) evs).
Proof.
  split; [reflexivity|]. split.
  - intros key. unfold _sanitize, PyStr.strip_chars.
    destruct (strip_spec PyStr.isspace key) as (ws1 & ws2 & Hkey & Hws1 & Hws2 & Ha).
    set (a := PyStr.strip PyStr.isspace key) in *.
    destruct (strip_spec (fun c => PyStr.mem c (String PyStr.dquote "")) a)
      as (dq1 & dq2 & Heqa & Hdq1 & Hdq2 & Hb).
    set (b := PyStr.strip (fun c => PyStr.mem c (String PyStr.dquote "")) a) in *.
    destruct (strip_spec (fun c => PyStr.mem c "'") b)
      as (sq1 & sq2 & Heqb & Hsq1 & Hsq2 & Hr).
    exists a, b, ws1, ws2, dq1, dq2, sq1, sq2.
    pose proof (fun q => all_chars_ext _ _ (mem_single q)) as Hmem.
    pose proof (fun q => ends_clean_ext _ _ (mem_single q)) as Hclean.
    rewrite Hmem in Hdq1, Hdq2, Hsq1, Hsq2. rewrite Hclean in Hb, Hr.
    repeat split; assumption.
  - intros w user_prompt ss st. unfold on_run_click.
    destruct (not_str user_prompt);
      [exists []; split; [now rewrite app_nil_r|constructor]|].
    destruct (not_str (gemini_key ss) || not_str (groq_key ss)
              || use_search ss && not_str (tavily_key ss)) eqn:Hkeys;
      [exists []; split; [now rewrite app_nil_r|constructor]|].
    destruct (run_agents_parallel_carries_keys w user_prompt
                (groq_key ss) (groq_model ss) (groq_temp ss)
                (gemini_key ss) (gemini_model ss) (gemini_temp ss)
                (use_search ss) (Some (tavily_key ss))
                (_sanitize (tavily_key_input ss)) st)
      as (evs & Htrace & Hall).
    + intros Hwanted. apply search_wanted_spec in Hwanted as (Hus & _).
      unfold tavily_key. now rewrite Hus.
    + exists evs. split; [|exact Hall]. rewrite <- Htrace.
      now destruct (run_agents_parallel w user_prompt _ _ st) as [[[]|] ?].
Qed.

(** the keys of the page [ss0] once sanitised, and a key in single quotes
    inside double quotes, whose double quotes stay *)
Lemma sanitize_examples :
  gemini_key ss0 = "AIza_456" /\
  groq_key ss0 = "gsk_123" /\
  tavily_key ss0 = "tvly-789" /\
  _sanitize (Some ("'" +:+ String PyStr.dquote "gsk_123"
                       +:+ String PyStr.dquote "'"))
    = String PyStr.dquote "gsk_123" +:+ String PyStr.dquote "".
Proof. repeat split; reflexivity. Qed.

(* ===================================================================== *)
(** ** Further properties of [agents.py] *)
(* ===================================================================== *)

Import Page.

(** X1: [create_reactive_agent] makes one call, the health check, and
    leaves the environment alone. When the check raises with a message it
    raises [ValueError] with the model name and that message; when the check
    answers, or raises without a message, it returns the chain built from
    its three arguments. *)
Theorem create_reactive_agent_spec (w : world) (api_key model_name : string)
    (temperature : Qc) (st : state) :
  let check := health_check_chain api_key model_name in
  let answer := groq_invoke w (length (trace st)) check "" in
  exists (r : result chain) (st' : state),
    create_reactive_agent w api_key model_name temperature st = (r, st') /\
    trace st' = trace st ++ [GroqInvoke check ""] /\
    environ st' = environ st /\
    (forall e, answer = Raise e -> exn_str e <> "" ->
       r = Raise (ValueError ("Groq API key or model '" +:+ model_name
                              +:+ "' is invalid: " +:+ exn_str e))) /\
    (forall e, answer = Raise e -> exn_str e = "" ->
       r = Ok (reactive_chain api_key model_name temperature)) /\
    (forall response, answer = Ok response ->
       r = Ok (reactive_chain api_key model_name temperature)).
Proof.
  intros check answer. unfold create_reactive_agent, bind.
  rewrite validate_groq_key_eq. fold check answer.
  destruct answer as [response|e].
  - eexists _, _. split; [reflexivity|].
    split; [reflexivity|]. split; [reflexivity|].
    split; [discriminate|]. split; [discriminate|]. reflexivity.
  - unfold err_truthy, default, from_option, id.
    destruct (truthy (VStr (exn_str e))) eqn:Htruthy.
    + apply truthy_str_nonempty in Htruthy.
      eexists _, _. split; [reflexivity|].
      split; [reflexivity|]. split; [reflexivity|].
      split; [now intros e' [= <-] _|].
      split; [|discriminate].
      intros e' [= <-] Hempty. contradiction.
    + eexists _, _. split; [reflexivity|].
      split; [reflexivity|]. split; [reflexivity|].
      split; [|split; [now intros e' [= <-] _|discriminate]].
      intros e' [= <-] Hne. apply truthy_str_nonempty in Hne. congruence.
Qed.

(** a use of [create_reactive_agent_spec]: a rejected key *)
Lemma create_reactive_agent_spec_auth_error :
  fst (create_reactive_agent w_auth_error "gsk_123" "llama-3.1-8b-instant"
                             0%Qc st0)
    = Raise (ValueError
        "Groq API key or model 'llama-3.1-8b-instant' is invalid: 401 Invalid API Key").
Proof.
  destruct (create_reactive_agent_spec w_auth_error "gsk_123"
              "llama-3.1-8b-instant" 0%Qc st0)
    as (r & st' & Hrun & _ & _ & Hraise & _).
  rewrite Hrun. simpl. now rewrite (Hraise _ eq_refl).
Defined.

(** the calls of the draft step that are not health checks *)
Lemma completion_calls_checks (api_key model : string) :
  let check := GroqInvoke (health_check_chain api_key model) "" in
  completion_calls [check] = [] /\ completion_calls [check; check] = [].
Proof. split; reflexivity. Qed.

(** X2: when the first health check raises with a message, [run_reactive]
    stops there: it has made that one call and no drafting call, and returns
    "Reactive Agent Error: " followed by the message. *)
Theorem run_reactive_stops_on_validation_error (w : world)
    (prompt api_key model : string) (temperature : Qc) (st : state) (e : exn)
    (Hcheck : groq_invoke w (length (trace st))
                (health_check_chain api_key model) "" = Raise e)
    (Hmsg : exn_str e <> "") :
  exists (st' : state) (calls : list event),
    run_reactive w prompt api_key model temperature st
      = (Ok ("Reactive Agent Error: " +:+ exn_str e), st') /\
    trace st' = trace st ++ calls /\
    calls = [GroqInvoke (health_check_chain api_key model) ""] /\
    completion_calls calls = [].
Proof.
  rewrite run_reactive_eq. unfold draft_outcome, validation_error.
  rewrite Hcheck. apply truthy_str_nonempty in Hmsg.
  unfold err_truthy. rewrite Hmsg. simpl.
  eexists _, _. repeat split; reflexivity.
Qed.

(** a use of [run_reactive_stops_on_validation_error] *)
Lemma run_reactive_stops_on_validation_error_auth :
  fst (run_reactive w_auth_error "The future of serverless computing"
                    "gsk_123" "llama-3.1-8b-instant" 0%Qc st0)
    = Ok "Reactive Agent Error: 401 Invalid API Key".
Proof.
  destruct (run_reactive_stops_on_validation_error w_auth_error
              "The future of serverless computing" "gsk_123"
              "llama-3.1-8b-instant" 0%Qc st0 (Exception "401 Invalid API Key")
              eq_refl) as (st' & calls & Hrun & _); [discriminate|].
  now rewrite Hrun.
Defined.

(** X3: when the first health check answers and the second, made by
    [create_reactive_agent], raises with a message, the [ValueError] is caught
    by [run_reactive]: the draft is "Reactive Agent Error: Groq API key or
    model '...' is invalid: " followed by the message, and after the two
    checks no drafting call is made. *)
Theorem run_reactive_second_check_fails (w : world)
    (prompt api_key model : string) (temperature : Qc) (st : state)
    (response : AIMessage) (e : exn)
    (Hcheck1 : groq_invoke w (length (trace st))
                 (health_check_chain api_key model) "" = Ok response)
    (Hcheck2 : groq_invoke w (S (length (trace st)))
                 (health_check_chain api_key model) "" = Raise e)
    (Hmsg : exn_str e <> "") :
  exists (st' : state) (calls : list event),
    run_reactive w prompt api_key model temperature st
      = (Ok ("Reactive Agent Error: " +:+ "Groq API key or model '" +:+ model
             +:+ "' is invalid: " +:+ exn_str e), st') /\
    trace st' = trace st ++ calls /\
    length calls = 2%nat /\
    completion_calls calls = [].
Proof.
  rewrite run_reactive_eq. unfold draft_outcome, validation_error.
  rewrite Hcheck1, Hcheck2. apply truthy_str_nonempty in Hmsg.
  unfold err_truthy at 1. simpl truthy. cbv iota.
  unfold err_truthy. rewrite Hmsg. simpl.
  eexists _, _. repeat split; reflexivity.
Qed.

(** a use of [run_reactive_second_check_fails] *)
Lemma run_reactive_second_check_fails_rate_limit :
  fst (run_reactive w_second_check_fails "The future of serverless computing"
                    "gsk_123" "llama-3.1-8b-instant" 0%Qc st0)
    = Ok "Reactive Agent Error: Groq API key or model 'llama-3.1-8b-instant' is invalid: 429 rate limit".
Proof.
  destruct (run_reactive_second_check_fails w_second_check_fails
              "The future of serverless computing" "gsk_123"
              "llama-3.1-8b-instant" 0%Qc st0 {| content := "OK" |}
              (Exception "429 rate limit") eq_refl eq_refl)
    as (st' & calls & Hrun & _); [discriminate|].
  now rewrite Hrun.
Defined.

(** X4: a health check that raises without a message is not taken for a
    failure. When each of the two checks answers or raises without a
    message, [run_reactive] goes on to the drafting call and returns the
    content of its answer, or the error string of the exception it raises. *)
Theorem run_reactive_silent_check_passes (w : world)
    (prompt api_key model : string) (temperature : Qc) (st : state)
    (Hcheck1 : forall e, groq_invoke w (length (trace st))
                           (health_check_chain api_key model) "" = Raise e ->
                         exn_str e = "")
    (Hcheck2 : forall e, groq_invoke w (S (length (trace st)))
                           (health_check_chain api_key model) "" = Raise e ->
                         exn_str e = "") :
  let c := reactive_chain api_key model temperature in
  exists (st' : state),
    run_reactive w prompt api_key model temperature st
      = (Ok (match groq_invoke w (S (S (length (trace st)))) c prompt with
             | Ok response => content response
             | Raise e => "Reactive Agent Error: " +:+ exn_str e
             end), st') /\
    completion_calls (drop (length (trace st)) (trace st'))
      = [GroqInvoke c prompt].
Proof.
  intros c. rewrite run_reactive_eq. unfold draft_outcome, validation_error.
  assert (Hpass : forall n,
             (forall e, groq_invoke w n (health_check_chain api_key model) ""
                        = Raise e -> exn_str e = "") ->
             err_truthy
               match groq_invoke w n (health_check_chain api_key model) "" with
               | Ok _ => None
               | Raise e => Some (exn_str e)
               end = false).
  { intros n Hn. destruct (groq_invoke w n _ _) as [|e]; [reflexivity|].
    now rewrite (Hn e eq_refl). }
  rewrite (Hpass _ Hcheck1), (Hpass _ Hcheck2). simpl.
  eexists. split; [reflexivity|].
  cbn [trace]. now rewrite drop_app_length.
Qed.

(** a use of [run_reactive_silent_check_passes]: both checks fail without a
    message, the draft is produced all the same *)
Lemma run_reactive_silent_check_passes_mock :
  fst (run_reactive w_silent_check "The future of serverless computing"
                    "gsk_123" "llama-3.1-8b-instant" 0%Qc st0)
    = Ok "Serverless is rising.".
Proof.
  destruct (run_reactive_silent_check_passes w_silent_check
              "The future of serverless computing" "gsk_123"
              "llama-3.1-8b-instant" 0%Qc st0) as (st' & Hrun & _).
  - now intros e [= <-].
  - now intros e [= <-].
  - now rewrite Hrun.
Defined.

(** X5: one run of [run_agents_parallel] makes at least one and at most
    three calls to the fast provider. When search is enabled with a
    non-empty key that holds a NUL character, the environment refuses the
    key and the refinement step makes no call. Otherwise the search tool is
    set up once when search is enabled with a non-empty key, and not at all
    when it is not, and the executor is invoked exactly once: between two
    and five calls in all. *)
Theorem run_agents_parallel_call_counts (w : world) (prompt : string)
    (gk gm : string) (gt : Qc) (k m : string) (t : Qc) (us : bool)
    (tk : option string) (st : state) :
  let wanted := us && err_truthy tk in
  let refused := wanted && PyStr.mem "000"%char (default "" tk) in
  exists calls : list event,
    trace (snd (run_agents_parallel w prompt (gk, gm, gt) (k, m, t, us, tk) st))
      = trace st ++ calls /\
    (1 <= count_events is_draft_event calls <= 3)%nat /\
    count_events is_tavily_event calls
      = (if wanted && negb refused then 1 else 0)%nat /\
    count_events is_executor_event calls = (if refused then 0 else 1)%nat /\
    (length calls <= 5)%nat /\
    (if refused then 1 <= length calls <= 3 else 2 <= length calls)%nat.
Proof.
  intros wanted refused.
  rewrite run_agents_parallel_trace, key_refused_spec.
  fold wanted refused. eexists. split; [reflexivity|].
  unfold draft_outcome, search_wanted. fold wanted.
  destruct (err_truthy (validation_error w (length (trace st)) gk gm));
    [|destruct (err_truthy (validation_error w (S (length (trace st))) gk gm))];
    destruct refused, wanted; cbn; repeat split; lia.
Qed.

(** *** Dict-shaped results without a final-output field *)

Lemma join_nonempty (sep s : string) (l : list string) :
  In s l -> s <> "" -> PyStr.join sep l <> "".
Proof.
  induction l as [|a l IH]; [contradiction|].
  intros [-> | Hin] Hs.
  - destruct l; [exact Hs|]. simpl. destruct s; [contradiction|discriminate].
  - destruct l as [|b l]; [contradiction|].
    intros Hjoin. apply (IH Hin Hs).
    change (PyStr.join sep (a :: b :: l))
      with (a +:+ sep +:+ PyStr.join sep (b :: l)) in Hjoin.
    destruct a; [|discriminate].
    change ("" +:+ sep +:+ PyStr.join sep (b :: l))
      with (sep +:+ PyStr.join sep (b :: l)) in Hjoin.
    destruct sep; [exact Hjoin|discriminate].
Qed.

Lemma message_texts_in (messages : list pyval) (msg : pyval) (s : string) :
  In msg messages -> getattr msg "content" = VStr s -> s <> "" ->
  In s (message_texts messages).
Proof.
  intros Hin Hcontent Hs. induction messages as [|m' messages IH];
    [contradiction|].
  destruct Hin as [-> | Hin].
  - cbn [message_texts]. rewrite Hcontent.
    apply truthy_str_nonempty in Hs. rewrite Hs. now left.
  - cbn [message_texts].
    destruct (truthy (getattr m' "content")); [right|]; now apply IH.
Qed.

Lemma nonempty_is_nonempty_str (s : string) :
  s <> "" -> is_nonempty_str (VStr s) = true.
Proof. now destruct s. Qed.

(** X6: for a dict without any of the three final-output fields the
    extraction always gives a string. It is the dict's own string form,
    which is not empty, when [messages] is missing, is not a list, or has no
    entry with a true [content]; and it is not empty when some entry of the
    [messages] list has a non-empty string as [content]. *)
Theorem extract_final_content_dict_without_field (d : list (string * pyval))
    (Hnone : first_present ["output"; "output_text"; "final_output"] d = None) :
  is_str (extract_final_content (VDict d)) = true /\
  ((forall messages, assoc "messages" d = Some (VList messages) ->
                     message_texts messages = []) ->
   extract_final_content (VDict d) = VStr (str (VDict d)) /\
   PyStr.startswith "{" (str (VDict d)) = true /\
   is_nonempty_str (extract_final_content (VDict d)) = true) /\
  (forall messages msg s,
     assoc "messages" d = Some (VList messages) ->
     In msg messages -> getattr msg "content" = VStr s -> s <> "" ->
     is_nonempty_str (extract_final_content (VDict d)) = true).
Proof.
  split; [|split].
  - apply extract_final_content_str. exact Hnone.
  - intros Hmsgs.
    assert (Heq : extract_final_content (VDict d) = VStr (str (VDict d))).
    { unfold extract_final_content. rewrite Hnone.
      destruct (assoc "messages" d) as [[]|]; try reflexivity.
      now rewrite (Hmsgs _ eq_refl). }
    split; [exact Heq|]. split; [reflexivity|]. now rewrite Heq.
  - intros messages msg s Hmsgs Hin Hcontent Hs.
    pose proof (message_texts_in _ _ _ Hin Hcontent Hs) as Htexts.
    unfold extract_final_content. rewrite Hnone, Hmsgs.
    destruct (message_texts messages) as [|a l] eqn:Hl; [contradiction|].
    cbn [default from_option id]. unfold default, from_option, id.
    apply nonempty_is_nonempty_str.
    now apply (join_nonempty nl s (a :: l)).
Qed.

(** a use of [extract_final_content_dict_without_field] *)
Lemma extract_final_content_dict_without_field_messages :
  is_nonempty_str
    (extract_final_content (VDict [("messages", VList three_messages)])) = true.
Proof.
  destruct (extract_final_content_dict_without_field
              [("messages", VList three_messages)] eq_refl) as (_ & _ & Hmsg).
  apply (Hmsg three_messages
           (VObj [("content", VStr "first")] "m1" "m1") "first");
    [reflexivity|now left|reflexivity|discriminate].
Defined.

(* ===================================================================== *)
(** ** Further properties of [app.py] *)
(* ===================================================================== *)

(** *** Stripping a wrapped string *)

Lemma lstrip_all (p : ascii -> bool) (s : string) :
  PyStr.all_chars p s = true -> PyStr.lstrip p s = "".
Proof.
  induction s as [|c s IH]; [reflexivity|].
  cbn. intros [Hc Hs]%andb_true_iff. rewrite Hc. now apply IH.
Qed.

Lemma lstrip_app_all (p : ascii -> bool) (pre s : string) :
  PyStr.all_chars p pre = true ->
  PyStr.lstrip p (pre +:+ s) = PyStr.lstrip p s.
Proof.
  induction pre as [|c pre IH]; [reflexivity|].
  cbn. intros [Hc Hpre]%andb_true_iff.
  change (String c pre +:+ s) with (String c (pre +:+ s)).
  cbn. rewrite Hc. now apply IH.
Qed.

Lemma rstrip_all (p : ascii -> bool) (s : string) :
  PyStr.all_chars p s = true -> PyStr.rstrip p s = "".
Proof.
  induction s as [|c s IH]; [reflexivity|].
  cbn. intros [Hc Hs]%andb_true_iff. rewrite (IH Hs). now rewrite Hc.
Qed.

Lemma rstrip_app_all (p : ascii -> bool) (s post : string) :
  PyStr.all_chars p post = true ->
  PyStr.rstrip p (s +:+ post) = PyStr.rstrip p s.
Proof.
  intros Hpost. induction s as [|c s IH]; [now apply rstrip_all|].
  change (String c s +:+ post) with (String c (s +:+ post)).
  cbn. now rewrite IH.
Qed.

Lemma last_char_cons (c : ascii) (s : string) :
  PyStr.last_char (String c s)
    = match PyStr.last_char s with Some c' => Some c' | None => Some c end.
Proof.
  destruct s as [|a s]; [reflexivity|].
  change (PyStr.last_char (String c (String a s)))
    with (PyStr.last_char (String a s)).
  destruct (PyStr.last_char (String a s)) eqn:Hlast; [reflexivity|].
  exfalso. revert a Hlast. induction s as [|b s IH]; intros a Hlast;
    [discriminate|].
  now apply (IH b).
Qed.

Lemma rstrip_clean (p : ascii -> bool) (s : string) :
  match PyStr.last_char s with Some c => p c = false | None => True end ->
  PyStr.rstrip p s = s.
Proof.
  induction s as [|c s IH]; [reflexivity|].
  rewrite last_char_cons. cbn [PyStr.rstrip].
  destruct (PyStr.last_char s) as [c'|] eqn:Hlast.
  - intros Hc'. rewrite (IH Hc'). destruct s; [discriminate|reflexivity].
  - intros Hc. destruct s as [|a s]; [cbn; now rewrite Hc|].
    rewrite last_char_cons in Hlast. now destruct (PyStr.last_char s).
Qed.

Lemma first_char_app (a b : string) :
  PyStr.first_char (a +:+ b)
    = match PyStr.first_char a with
      | Some c => Some c
      | None => PyStr.first_char b
      end.
Proof. now destruct a. Qed.

Lemma last_char_app (a b : string) :
  PyStr.last_char (a +:+ b)
    = match PyStr.last_char b with
      | Some c => Some c
      | None => PyStr.last_char a
      end.
Proof.
  induction a as [|x a IH].
  - change ("" +:+ b) with b. now destruct (PyStr.last_char b).
  - change (String x a +:+ b) with (String x (a +:+ b)).
    rewrite !last_char_cons, IH.
    now destruct (PyStr.last_char b), (PyStr.last_char a).
Qed.

Lemma all_chars_first (q : ascii -> bool) (s : string) (c : ascii) :
  PyStr.all_chars q s = true -> PyStr.first_char s = Some c -> q c = true.
Proof.
  destruct s; [discriminate|]. cbn.
  intros [Hc _]%andb_true_iff [= <-]. exact Hc.
Qed.

Lemma all_chars_last (q : ascii -> bool) (s : string) (c : ascii) :
  PyStr.all_chars q s = true -> PyStr.last_char s = Some c -> q c = true.
Proof.
  induction s as [|a s IH]; [discriminate|].
  cbn [PyStr.all_chars]. intros [Ha Hs]%andb_true_iff.
  rewrite last_char_cons.
  destruct (PyStr.last_char s) as [c'|]; intros [= <-]; [now apply IH|exact Ha].
Qed.

(** [strip] undoes a wrapping: the converse of [strip_spec] *)
Lemma strip_wrapped (p : ascii -> bool) (pre s post : string) :
  PyStr.all_chars p pre = true ->
  PyStr.all_chars p post = true ->
  PyStr.ends_clean p s = true ->
  PyStr.strip p (pre +:+ s +:+ post) = s.
Proof.
  intros Hpre Hpost [Hfirst Hlast]%andb_true_iff.
  unfold PyStr.strip. rewrite (lstrip_app_all p pre _ Hpre).
  destruct s as [|c s].
  - change ("" +:+ post) with post. now rewrite (lstrip_all p post Hpost).
  - cbn in Hfirst. apply negb_true_iff in Hfirst.
    change (String c s +:+ post) with (String c (s +:+ post)).
    cbn [PyStr.lstrip]. rewrite Hfirst.
    change (String c (s +:+ post)) with (String c s +:+ post).
    rewrite (rstrip_app_all p _ post Hpost).
    apply rstrip_clean.
    destruct (PyStr.last_char (String c s)); [|exact I].
    now apply negb_true_iff.
Qed.

(** wrapping in characters that are not to be dropped keeps the ends clean *)
Lemma ends_clean_wrap (p q : ascii -> bool) (pre s post : string) :
  (forall c, q c = true -> p c = false) ->
  PyStr.all_chars q pre = true ->
  PyStr.all_chars q post = true ->
  PyStr.ends_clean p s = true ->
  PyStr.ends_clean p (pre +:+ s +:+ post) = true.
Proof.
  intros Hqp Hpre Hpost [Hfirst Hlast]%andb_true_iff.
  unfold PyStr.ends_clean.
  rewrite !first_char_app, !last_char_app.
  apply andb_true_iff. split.
  - destruct (PyStr.first_char pre) as [c|] eqn:H1.
    { now rewrite (Hqp c (all_chars_first q pre c Hpre H1)). }
    destruct (PyStr.first_char s) as [c|]; [exact Hfirst|].
    destruct (PyStr.first_char post) as [c|] eqn:H3; [|reflexivity].
    now rewrite (Hqp c (all_chars_first q post c Hpost H3)).
  - destruct (PyStr.last_char post) as [c|] eqn:H1.
    { now rewrite (Hqp c (all_chars_last q post c Hpost H1)). }
    destruct (PyStr.last_char s) as [c|]; [exact Hlast|].
    destruct (PyStr.last_char pre) as [c|] eqn:H3; [|reflexivity].
    now rewrite (Hqp c (all_chars_last q pre c Hpre H3)).
Qed.

Lemma ends_clean_weaken (p p' : ascii -> bool) (s : string) :
  (forall c, p c = true -> p' c = true) ->
  PyStr.ends_clean p' s = true -> PyStr.ends_clean p s = true.
Proof.
  intros Hpp'. unfold PyStr.ends_clean.
  assert (Hneg : forall c, negb (p' c) = true -> negb (p c) = true).
  { intros c Hc. apply negb_true_iff in Hc. apply negb_true_iff.
    destruct (p c) eqn:Hpc; [|reflexivity]. now rewrite (Hpp' c Hpc) in Hc. }
  intros [H1 H2]%andb_true_iff. apply andb_true_iff. split.
  - destruct (PyStr.first_char s); [now apply Hneg|reflexivity].
  - destruct (PyStr.last_char s); [now apply Hneg|reflexivity].
Qed.

(** *** Sanitising the pasted keys *)

Lemma quote_not_space (q : ascii) :
  q = PyStr.dquote \/ q = "'"%char ->
  forall c, Ascii.eqb q c = true -> PyStr.isspace c = false.
Proof. intros [-> | ->] c Hc; apply Ascii.eqb_eq in Hc; now subst c. Qed.

Lemma squote_not_dquote (c : ascii) :
  Ascii.eqb "'" c = true -> Ascii.eqb PyStr.dquote c = false.
Proof. intros Hc. apply Ascii.eqb_eq in Hc. now subst c. Qed.

(** X7: [_sanitize] undoes the wrapping of a key. A key that neither starts
    nor ends with white space or a quote, put in single quotes, then in
    double quotes, then in white space (any number of each, on either side),
    is given back as it was; in particular such a key pasted as it is comes
    through unchanged. *)
Theorem sanitize_unwraps (key ws1 ws2 dq1 dq2 sq1 sq2 : string)
    (Hkey : PyStr.ends_clean is_wrapping key = true)
    (Hws1 : PyStr.all_chars PyStr.isspace ws1 = true)
    (Hws2 : PyStr.all_chars PyStr.isspace ws2 = true)
    (Hdq1 : PyStr.all_chars (Ascii.eqb PyStr.dquote) dq1 = true)
    (Hdq2 : PyStr.all_chars (Ascii.eqb PyStr.dquote) dq2 = true)
    (Hsq1 : PyStr.all_chars (Ascii.eqb "'") sq1 = true)
    (Hsq2 : PyStr.all_chars (Ascii.eqb "'") sq2 = true) :
  _sanitize (Some (ws1 +:+ (dq1 +:+ (sq1 +:+ key +:+ sq2) +:+ dq2) +:+ ws2))
    = key /\
  _sanitize (Some key) = key.
Proof.
  assert (Hspace : PyStr.ends_clean PyStr.isspace key = true).
  { apply (ends_clean_weaken _ is_wrapping); [|exact Hkey].
    intros c Hc. unfold is_wrapping. now rewrite Hc. }
  assert (Hdq : PyStr.ends_clean (Ascii.eqb PyStr.dquote) key = true).
  { apply (ends_clean_weaken _ is_wrapping); [|exact Hkey].
    intros c Hc. unfold is_wrapping. rewrite Hc. now rewrite orb_true_r. }
  assert (Hsq : PyStr.ends_clean (Ascii.eqb "'") key = true).
  { apply (ends_clean_weaken _ is_wrapping); [|exact Hkey].
    intros c Hc. unfold is_wrapping. rewrite Hc. now rewrite !orb_true_r. }
  assert (Hgen : forall ws1 ws2 dq1 dq2 sq1 sq2,
             PyStr.all_chars PyStr.isspace ws1 = true ->
             PyStr.all_chars PyStr.isspace ws2 = true ->
             PyStr.all_chars (Ascii.eqb PyStr.dquote) dq1 = true ->
             PyStr.all_chars (Ascii.eqb PyStr.dquote) dq2 = true ->
             PyStr.all_chars (Ascii.eqb "'") sq1 = true ->
             PyStr.all_chars (Ascii.eqb "'") sq2 = true ->
             _sanitize (Some (ws1 +:+ (dq1 +:+ (sq1 +:+ key +:+ sq2) +:+ dq2)
                                  +:+ ws2)) = key).
  { clear ws1 ws2 dq1 dq2 sq1 sq2 Hws1 Hws2 Hdq1 Hdq2 Hsq1 Hsq2.
    intros ws1 ws2 dq1 dq2 sq1 sq2 Hws1 Hws2 Hdq1 Hdq2 Hsq1 Hsq2.
    unfold _sanitize, PyStr.strip_chars.
    rewrite (strip_wrapped PyStr.isspace ws1 _ ws2 Hws1 Hws2).
    - rewrite (strip_wrapped _ dq1 _ dq2).
      + apply strip_wrapped.
        * now rewrite (all_chars_ext _ _ (mem_single "'")).
        * now rewrite (all_chars_ext _ _ (mem_single "'")).
        * now rewrite (ends_clean_ext _ _ (mem_single "'")).
      + now rewrite (all_chars_ext _ _ (mem_single PyStr.dquote)).
      + now rewrite (all_chars_ext _ _ (mem_single PyStr.dquote)).
      + rewrite (ends_clean_ext _ _ (mem_single PyStr.dquote)).
        now apply (ends_clean_wrap _ (Ascii.eqb "'"));
          [apply squote_not_dquote|..].
    - apply (ends_clean_wrap _ (Ascii.eqb PyStr.dquote));
        [apply quote_not_space; now left|exact Hdq1|exact Hdq2|].
      now apply (ends_clean_wrap _ (Ascii.eqb "'"));
        [apply quote_not_space; now right|..]. }
  split; [now apply Hgen|].
  pose proof (Hgen "" "" "" "" "" "" eq_refl eq_refl eq_refl eq_refl eq_refl
                eq_refl) as Hplain.
  change ("" +:+ ("" +:+ ("" +:+ key +:+ "") +:+ "") +:+ "")
    with (((key +:+ "") +:+ "") +:+ "") in Hplain.
  assert (Hnil : forall s : string, s +:+ "" = s).
  { intros s. induction s as [|c s IH]; [reflexivity|].
    change (String c s +:+ "") with (String c (s +:+ "")). now rewrite IH. }
  now rewrite !Hnil in Hplain.
Qed.

(** a use of [sanitize_unwraps]: a key in single quotes, in double quotes,
    with a blank before and a newline after *)
Lemma sanitize_unwraps_quoted :
  _sanitize (Some (" " +:+ (String PyStr.dquote ""
                     +:+ ("'" +:+ "gsk_123" +:+ "'")
                     +:+ String PyStr.dquote "") +:+ nl))
    = "gsk_123".
Proof.
  apply (sanitize_unwraps "gsk_123" " " nl (String PyStr.dquote "")
           (String PyStr.dquote "") "'" "'"); reflexivity.
Defined.

Lemma sanitize_blank_input (key : option string) :
  blank_input key = true -> _sanitize key = "".
Proof.
  destruct key as [s|]; [|reflexivity]. cbn. intros Hblank.
  unfold PyStr.strip_chars, PyStr.strip. now rewrite (lstrip_all _ _ Hblank).
Qed.

(** *** The handler of the button *)

Lemma not_str_spec (s : string) : not_str s = false <-> s <> "".
Proof.
  unfold not_str. rewrite negb_false_iff. apply truthy_str_nonempty.
Qed.

Lemma run_agents_parallel_ok (w : world) (prompt : string)
    (groq_cfg : groq_config) (gemini_cfg : gemini_config) (st : state) :
  exists d p st',
    run_agents_parallel w prompt groq_cfg gemini_cfg st = (Ok (d, p), st').
Proof.
  destruct groq_cfg as [[gk gm] gt], gemini_cfg as [[[[k m] t] us] tk].
  pose proof (run_agents_parallel_fst w prompt gk gm gt k m t us tk st) as Hfst.
  cbv zeta in Hfst.
  destruct (run_agents_parallel w prompt (gk, gm, gt) (k, m, t, us, tk) st)
    as [r st'].
  simpl in Hfst. subst r. now eexists _, _, _.
Qed.

(** X8: when the handler of the button reports an error, nothing has
    happened: no call to a provider or to the search tool was made, and the
    environment is as it was. *)
Theorem on_run_click_error_leaves_state (w : world) (user_prompt : string)
    (ss : session_state) (st : state) (msg : string)
    (Herror : fst (on_run_click w user_prompt ss st) = StError msg) :
  snd (on_run_click w user_prompt ss st) = st.
Proof.
  unfold on_run_click in *.
  destruct (not_str user_prompt); [reflexivity|].
  destruct (not_str (gemini_key ss) || not_str (groq_key ss)
            || use_search ss && not_str (tavily_key ss)); [reflexivity|].
  destruct (run_agents_parallel_ok w user_prompt
              (groq_key ss, groq_model ss, groq_temp ss)
              (gemini_key ss, gemini_model ss, gemini_temp ss, use_search ss,
               Some (tavily_key ss)) st) as (d & p & st' & Hrun).
  rewrite Hrun in Herror. discriminate.
Qed.

(** a use of [on_run_click_error_leaves_state]: no topic typed *)
Lemma on_run_click_error_leaves_state_no_topic :
  snd (on_run_click w_mock "" ss0 st0) = st0.
Proof.
  exact (on_run_click_error_leaves_state w_mock "" ss0 st0 _ eq_refl).
Defined.

(** X9: with a topic, a Gemini key and a Groq key that are not empty once
    sanitised, and a search key that is not empty when search is enabled,
    the handler runs the agents on the sanitised keys and shows the pair
    they return (the agents module being reloaded without an error). *)
Theorem on_run_click_runs_agents (w : world) (user_prompt : string)
    (ss : session_state) (st : state)
    (Hprompt : user_prompt <> "")
    (Hgemini : gemini_key ss <> "")
    (Hgroq : groq_key ss <> "")
    (Htavily : use_search ss = true -> tavily_key ss <> "") :
  let run :=
    run_agents_parallel w user_prompt
      (groq_key ss, groq_model ss, groq_temp ss)
      (gemini_key ss, gemini_model ss, gemini_temp ss, use_search ss,
       Some (tavily_key ss)) st in
  exists reactive_result proactive_result,
    fst run = Ok (reactive_result, proactive_result) /\
    on_run_click w user_prompt ss st
      = (Results reactive_result proactive_result, snd run).
Proof.
  intros run. unfold on_run_click.
  apply not_str_spec in Hprompt, Hgemini, Hgroq.
  rewrite Hprompt, Hgemini, Hgroq. cbn [orb].
  assert (Hsearch : use_search ss && not_str (tavily_key ss) = false).
  { destruct (use_search ss); [|reflexivity].
    now apply not_str_spec, Htavily. }
  rewrite Hsearch. fold run.
  destruct (run_agents_parallel_ok w user_prompt
              (groq_key ss, groq_model ss, groq_temp ss)
              (gemini_key ss, gemini_model ss, gemini_temp ss, use_search ss,
               Some (tavily_key ss)) st) as (d & p & st' & Hrun).
  fold run in Hrun. rewrite Hrun. now exists d, p.
Qed.

(** a use of [on_run_click_runs_agents]: the page [ss0] *)
Lemma on_run_click_runs_agents_mock :
  fst (on_run_click w_mock "The future of serverless computing" ss0 st0)
    = Results "Serverless is rising." (VStr refined_text).
Proof.
  destruct (on_run_click_runs_agents w_mock
              "The future of serverless computing" ss0 st0)
    as (r & p & Hfst & Hclick); try discriminate.
  rewrite Hclick. injection Hfst as <- <-. reflexivity.
Defined.

(** X10: a Gemini or Groq key field left empty or filled with white space
    only, or such a search key field when search is enabled, makes the
    handler end with an error without calling anything: it asks for the
    keys when a topic was typed, and for a topic when none was. *)
Theorem on_run_click_blank_key (w : world) (user_prompt : string)
    (ss : session_state) (st : state)
    (Hblank : blank_input (gemini_key_input ss) = true \/
              blank_input (groq_key_input ss) = true \/
              (use_search ss = true /\
               blank_input (tavily_key_input ss) = true)) :
  (user_prompt <> "" ->
   on_run_click w user_prompt ss st
     = (StError "Please ensure all necessary API keys are provided in the sidebar.",
        st)) /\
  (user_prompt = "" ->
   on_run_click w user_prompt ss st
     = (StError "Please enter a content idea to run the agents.", st)).
Proof.
  split.
  - intros Hprompt.
    unfold on_run_click. apply not_str_spec in Hprompt. rewrite Hprompt.
    assert (Hkeys : not_str (gemini_key ss) || not_str (groq_key ss)
                    || use_search ss && not_str (tavily_key ss) = true).
    { destruct Hblank as [H | [H | [Hus H]]].
      - unfold gemini_key. now rewrite (sanitize_blank_input _ H).
      - unfold groq_key. rewrite (sanitize_blank_input _ H).
        now rewrite orb_true_r.
      - unfold tavily_key. rewrite Hus, (sanitize_blank_input _ H).
        now rewrite orb_true_r. }
    now rewrite Hkeys.
  - now intros ->.
Qed.

(** a use of [on_run_click_blank_key]: blanks typed as Groq key *)
Lemma on_run_click_blank_key_groq :
  on_run_click w_mock "The future of serverless computing" ss_blank_key st0
    = (StError "Please ensure all necessary API keys are provided in the sidebar.",
       st0).
Proof.
  apply (on_run_click_blank_key w_mock "The future of serverless computing"
           ss_blank_key st0); [|discriminate].
  right. left. reflexivity.
Defined.

Lemma on_run_click_state (w : world) (user_prompt : string)
    (ss : session_state) (st : state) :
  snd (on_run_click w user_prompt ss st) = st \/
  snd (on_run_click w user_prompt ss st)
    = snd (run_agents_parallel w user_prompt
             (groq_key ss, groq_model ss, groq_temp ss)
             (gemini_key ss, gemini_model ss, gemini_temp ss, use_search ss,
              Some (tavily_key ss)) st).
Proof.
  unfold on_run_click.
  destruct (not_str user_prompt); [now left|].
  destruct (not_str (gemini_key ss) || not_str (groq_key ss)
            || use_search ss && not_str (tavily_key ss)); [now left|].
  right. now destruct (run_agents_parallel w user_prompt _ _ st) as [[[]|] ?].
Qed.

(** X11: with search disabled the search key field plays no part: whatever
    is typed in it, the handler gives the same outcome and leaves the same
    state, no search tool is set up, and the environment stays as it was. *)
Theorem on_run_click_search_disabled (w : world) (user_prompt : string)
    (ss : session_state) (st : state) (key : option string)
    (Hsearch : use_search ss = false) :
  on_run_click w user_prompt (with_tavily_input key ss) st
    = on_run_click w user_prompt ss st /\
  environ (snd (on_run_click w user_prompt ss st)) = environ st /\
  count_events is_tavily_event
    (drop (length (trace st)) (trace (snd (on_run_click w user_prompt ss st))))
    = 0%nat.
Proof.
  split; [|split].
  - unfold on_run_click, gemini_key, groq_key, tavily_key, with_tavily_input.
    cbn. now rewrite Hsearch.
  - destruct (on_run_click_state w user_prompt ss st) as [-> | ->];
      [reflexivity|].
    rewrite run_agents_parallel_environ. unfold environ_after, search_wanted.
    now rewrite Hsearch.
  - destruct (on_run_click_state w user_prompt ss st) as [-> | ->].
    + now rewrite drop_all.
    + rewrite run_agents_parallel_trace, drop_app_length.
      unfold search_wanted, draft_outcome. rewrite Hsearch. cbn [andb].
      destruct (err_truthy _); [reflexivity|].
      now destruct (err_truthy _).
Qed.

(** a use of [on_run_click_search_disabled] *)
Lemma on_run_click_search_disabled_mock :
  on_run_click w_mock "The future of serverless computing"
               (with_tavily_input None ss_no_search) st0
    = on_run_click w_mock "The future of serverless computing"
                   ss_no_search st0.
Proof.
  exact (proj1 (on_run_click_search_disabled w_mock
                  "The future of serverless computing" ss_no_search st0 None
                  eq_refl)).
Defined.

(** X12: a run changes no environment variable but [TAVILY_API_KEY]: every
    other variable reads the same after [run_agents_parallel], and after the
    handler of the button, as before. *)
Theorem other_variables_untouched (w : world) (prompt : string)
    (groq_cfg : groq_config) (gemini_cfg : gemini_config)
    (ss : session_state) (st : state) (name : string)
    (Hname : name <> "TAVILY_API_KEY") :
  environ (snd (run_agents_parallel w prompt groq_cfg gemini_cfg st)) !! name
    = environ st !! name /\
  environ (snd (on_run_click w prompt ss st)) !! name = environ st !! name.
Proof.
  assert (Hrun : forall groq_cfg gemini_cfg,
             environ (snd (run_agents_parallel w prompt groq_cfg gemini_cfg st))
               !! name = environ st !! name).
  { clear groq_cfg gemini_cfg.
    intros [[gk gm] gt] [[[[k m] t] us] tk].
    rewrite run_agents_parallel_environ. unfold environ_after.
    destruct (key_refused us tk); [reflexivity|].
    destruct (search_wanted us tk); [|reflexivity].
    now apply lookup_insert_ne. }
  split; [apply Hrun|].
  destruct (on_run_click_state w prompt ss st) as [-> | ->];
    [reflexivity|apply Hrun].
Qed.

(** a use of [other_variables_untouched] *)
Lemma other_variables_untouched_path :
  environ (snd (run_agents_parallel w_mock "topic" groq_cfg0 gemini_cfg_search
                  {| environ := {[ "PATH" := "/usr/bin" ]}; trace := [] |}))
    !! "PATH" = Some "/usr/bin".
Proof.
  rewrite (proj1 (other_variables_untouched w_mock "topic" groq_cfg0
                    gemini_cfg_search ss0
                    {| environ := {[ "PATH" := "/usr/bin" ]}; trace := [] |}
                    "PATH" ltac:(discriminate))).
  reflexivity.
Defined.

(** *** The session state around a run *)

Lemma delete_if_present_lookup (k : string) (session : gmap string pyval)
    (name : string) :
  (if session_has k session then delete k session else session) !! name
    = if bool_decide (name = k) then None else session !! name.
Proof.
  unfold session_has.
  destruct (decide (name = k)) as [-> | Hne].
  - rewrite (bool_decide_eq_true_2 (k = k)) by reflexivity.
    destruct (session !! k) as [v|] eqn:Hk.
    + rewrite bool_decide_eq_true_2 by eauto. apply lookup_delete_eq.
    + rewrite bool_decide_eq_false_2 by (intros [? [=]]). exact Hk.
  - rewrite (bool_decide_eq_false_2 (name = k)) by exact Hne.
    destruct (bool_decide (is_Some (session !! k))); [|reflexivity].
    apply lookup_delete_ne. congruence.
Qed.

Lemma delete_present_lookup (ks : list string) (session : gmap string pyval)
    (name : string) :
  delete_present ks session !! name
    = if bool_decide (name ∈ ks) then None else session !! name.
Proof.
  revert session. induction ks as [|k ks IH]; intros session.
  - cbn. now rewrite bool_decide_eq_false_2 by apply not_elem_of_nil.
  - cbn [delete_present]. rewrite IH, delete_if_present_lookup.
    repeat case_bool_decide; try reflexivity;
      match goal with
      | H : _ ∉ _ :: _ |- _ => exfalso; apply H, elem_of_cons; auto
      | H : _ ∈ _ :: _ |- _ =>
          apply elem_of_cons in H as [?|?]; contradiction
      end.
Qed.

(** X13: what the pre-clear block does to the session. With
    [__clear_keys__] set to a true value it takes out the three key fields,
    sets [__clear_keys__] to [False] and leaves every other entry; with
    [__clear_keys__] missing or false it leaves the session as it is. *)
Theorem pre_clear_lookup (session : gmap string pyval) (name : string) :
  pre_clear session !! name =
    if truthy (session_get "__clear_keys__" session) then
      if bool_decide (name ∈ key_widgets) then None
      else if bool_decide (name = "__clear_keys__") then Some (VBool false)
      else session !! name
    else session !! name.
Proof.
  unfold pre_clear.
  destruct (truthy (session_get "__clear_keys__" session)); [|reflexivity].
  destruct (decide (name = "__clear_keys__")) as [-> | Hne].
  - rewrite lookup_insert_eq. reflexivity.
  - rewrite lookup_insert_ne by congruence.
    rewrite delete_present_lookup.
    now rewrite (bool_decide_eq_false_2 (name = _)).
Qed.

Lemma pre_clear_flag_off (session : gmap string pyval) :
  truthy (session_get "__clear_keys__" (pre_clear session)) = false.
Proof.
  unfold session_get at 1. rewrite pre_clear_lookup.
  destruct (truthy (session_get "__clear_keys__" session)) eqn:Hflag;
    [reflexivity|exact Hflag].
Qed.

(** X14: right after the pre-clear block [__clear_keys__] is never true,
    so running the block a second time changes nothing. *)
Theorem pre_clear_idempotent (session : gmap string pyval) :
  truthy (session_get "__clear_keys__" (pre_clear session)) = false /\
  pre_clear (pre_clear session) = pre_clear session.
Proof.
  split; [apply pre_clear_flag_off|].
  unfold pre_clear at 1. now rewrite pre_clear_flag_off.
Qed.

(** X15: the keys are cleared after a run that produced results, and only
    then. Take a session that went through the pre-clear block, the
    handler's outcome on it, and the pre-clear block of the next run. After
    an error the session is unchanged, key fields included. After results
    the three key fields are gone, the two results and the topic are kept
    and shown, and [__clear_keys__] is [False] again. *)
Theorem keys_cleared_after_results (o : outcome) (user_prompt : string)
    (session : gmap string pyval) :
  let before := pre_clear session in
  let next := pre_clear (session_after o user_prompt before) in
  match o with
  | StError _ => next = before
  | Results reactive_result proactive_result =>
      (forall name, name ∈ key_widgets -> next !! name = None) /\
      next !! "reactive_result" = Some (VStr reactive_result) /\
      next !! "proactive_result" = Some proactive_result /\
      next !! "last_prompt" = Some (VStr user_prompt) /\
      shows_results next = true /\
      next !! "__clear_keys__" = Some (VBool false)
  end.
Proof.
  intros before next. destruct o as [msg | r p].
  - subst next before. cbn [session_after]. apply pre_clear_idempotent.
  - assert (Hflag : truthy (session_get "__clear_keys__"
                              (session_after (Results r p) user_prompt before))
                    = true).
    { unfold session_get, session_after, store_results.
      now rewrite lookup_insert_eq. }
    assert (Hnext : forall name,
               next !! name =
                 if bool_decide (name ∈ key_widgets) then None
                 else if bool_decide (name = "__clear_keys__")
                      then Some (VBool false)
                      else session_after (Results r p) user_prompt before
                             !! name).
    { intros name. subst next. now rewrite pre_clear_lookup, Hflag. }
    split; [|repeat split].
    + intros name Hin. now rewrite Hnext, bool_decide_eq_true_2.
    + rewrite Hnext. cbn. unfold store_results. now simplify_map_eq.
    + rewrite Hnext. cbn. unfold store_results. now simplify_map_eq.
    + rewrite Hnext. cbn. unfold store_results. now simplify_map_eq.
    + unfold shows_results, session_has. rewrite Hnext. cbn.
      unfold store_results. now simplify_map_eq.
    + now rewrite Hnext.
Qed.

(** *** The draft and the refinement's configuration *)

(** X16: the draft does not depend on how the refinement is configured: two
    runs from the same state that differ in the Gemini key, model,
    temperature, search switch or search key return the same first
    component. *)
Theorem draft_independent_of_gemini_config (w : world) (prompt : string)
    (groq_cfg : groq_config) (gemini_cfg gemini_cfg' : gemini_config)
    (st : state) :
  exists (d : string) (p p' : pyval),
    fst (run_agents_parallel w prompt groq_cfg gemini_cfg st) = Ok (d, p) /\
    fst (run_agents_parallel w prompt groq_cfg gemini_cfg' st) = Ok (d, p').
Proof.
  destruct groq_cfg as [[gk gm] gt].
  destruct gemini_cfg as [[[[k m] t] us] tk].
  destruct gemini_cfg' as [[[[k' m'] t'] us'] tk'].
  rewrite !run_agents_parallel_fst. now eexists _, _, _.
Qed.
